(** * Admission webhook: policy gate, patch builder and shared QoS store

    A shallow embedding of the request-processing core of the admission
    webhook.  Two programs live in the repository:

    - the direct-construction webhook (admission/v1), with [validate] and
      [mutate], embedded in module [V1];
    - the diff-based webhook (admission/v1beta1), with [mutateDeploy],
      [mutateQoS] and [mutate], embedded in module [V2], together with the
      process-wide QoS store it reads (module [QoSStore]).

    The libraries the code calls but does not contain (resource quantities,
    JSON decoding, the structural JSON diff) appear as interfaces
    (type classes); every statement below holds for all their instances.
    Writes to the diagnostic log buffer are not part of the model. *)

From Stdlib Require Import ZArith String Ascii List Lia.
From Stdlib Require Import DecimalNat DecimalString.
From stdpp Require Import base decidable option list gmap strings pretty.

Local Open Scope Z_scope.
Local Open Scope string_scope.
Local Open Scope list_scope.

(** ** Go primitives *)

Module Go.

(** Signed 64-bit integers are integers taken modulo 2^64 into
    [-2^63, 2^63). *)
Definition int64_min : Z := - 2 ^ 63.
Definition int64_max : Z := 2 ^ 63 - 1.

Definition int64_wrap (z : Z) : Z := (z + 2 ^ 63) mod 2 ^ 64 - 2 ^ 63.

Definition int64_mul (a b : Z) : Z := int64_wrap (a * b).

(** Go's [/] on integers truncates toward zero. *)
Definition int64_div (a b : Z) : Z := int64_wrap (Z.quot a b).

(** [strings.ToLower] on ASCII: 'A'..'Z' are mapped to 'a'..'z', every
    other byte is kept.  Go also lower-cases letters outside ASCII; none of
    the constants the webhook compares a lower-cased string with contains
    the image of such a letter, so those comparisons come out the same.
    This definition is used for those comparisons only; where the
    lower-cased string is emitted, the library function itself is used
    ([strings_ToLower] below). *)
Definition lower_ascii (c : ascii) : ascii :=
  let n := N_of_ascii c in
  if ((65 <=? n) && (n <=? 90))%N then ascii_of_N (n + 32) else c.

Fixpoint ToLower (s : string) : string :=
  match s with
  | EmptyString => EmptyString
  | String c s' => String (lower_ascii c) (ToLower s')
  end.

(** [%d] of a non-negative [int]. *)
Definition itoa (n : nat) : string := NilEmpty.string_of_uint (Nat.to_uint n).

(** A [switch] over string constants: does [s] equal one of the [cases]? *)
Definition one_of (s : string) (cases : list string) : bool :=
  existsb (String.eqb s) cases.

(** A [map[string]string] that may be [nil]. Indexing a nil or an empty
    map yields the zero value. *)
Definition index (m : option (gmap string string)) (k : string) : string :=
  match m with
  | None => ""
  | Some m => default "" (m !! k)
  end.

(** The two-result form [_, ok := m[k]]. *)
Definition has_key (m : option (gmap string string)) (k : string) : bool :=
  match m with
  | None => false
  | Some m => bool_decide (is_Some (m !! k))
  end.

End Go.

(** ** [strings.ToLower] as the Go library has it

    The full function, over all of Unicode, is not part of the repository:
    it is an interface, with no law assumed of it. *)

Class StringsLib := {
  strings_ToLower : string -> string
}.

(** ** The resource-quantity library (k8s.io/apimachinery/pkg/api/resource)

  The repository calls it but does not contain it: it is an interface
  here.  A quantity carries a display format; [MilliValue] reads it in
  milli-units as an int64, [NewMilliQuantity] and [NewQuantity] build one
  from an int64 count of milli-units or of units, [Quantity_String] prints
  it. *)

Inductive Format := DecimalExponent | BinarySI | DecimalSI.

Class QuantityLib := {
  Quantity : Type;
  Quantity_Format : Quantity -> Format;
  MilliValue : Quantity -> Z;
  NewMilliQuantity : Z -> Format -> Quantity;
  NewQuantity : Z -> Format -> Quantity;
  Quantity_String : Quantity -> string
}.

(** ** Object model (meta/v1, core/v1, apps/v1) *)

Module metav1.

Record ObjectMeta := {
  Name : string;
  Namespace : string;
  Labels : option (gmap string string);
  Annotations : option (gmap string string)
}.

Definition GetAnnotations (m : ObjectMeta) : option (gmap string string) :=
  Annotations m.

Record Status := {
  Message : string;
  Reason : string
}.

(** The values of the library's namespace constants. *)
Definition NamespaceSystem : string := "kube-system".
Definition NamespacePublic : string := "kube-public".

Record TypeMeta := {
  APIVersion : string;
  TypeMeta_Kind : string
}.

End metav1.

Module corev1.

(** [type ResourceName string] *)
Abbreviation ResourceName := string.

Section WithQuantity.
Context {QL : QuantityLib}.

Definition ResourceCPU : ResourceName := "cpu".
Definition ResourceMemory : ResourceName := "memory".

(** A [ResourceList] is a Go map from resource names to quantities; it is
  kept as its entries in the order in which a [range] statement visits
  them (Go leaves that order open), with pairwise distinct names. *)
Record ResourceRequirements := {
  Requests : list (ResourceName * Quantity)
}.

Record Container := {
  Name : string;
  Image : string;
  Command : list string;
  Resources : ResourceRequirements
}.

Record PodSpec := {
  InitContainers : list Container;
  Containers : list Container
}.

Record Service := {
  Service_ObjectMeta : metav1.ObjectMeta
}.

(** [m[k] = v] on a map kept as its entries. *)
Fixpoint assign (k : ResourceName) (v : Quantity)
  (m : list (ResourceName * Quantity)) : list (ResourceName * Quantity) :=
  match m with
  | [] => [(k, v)]
  | (k', v') :: m' =>
    if String.eqb k' k then (k', v) :: m' else (k', v') :: assign k v m'
  end.

End WithQuantity.

Abbreviation ResourceList := (list (ResourceName * Quantity)).

End corev1.

Module appsv1.
Section WithQuantity.
Context {QL : QuantityLib}.

(** [Deployment.Spec.Template.Spec] is the only part of the spec the
      webhook reads or writes. *)
Record Deployment := {
  ObjectMeta : metav1.ObjectMeta;
  Spec_Template_Spec : corev1.PodSpec
}.

End WithQuantity.
End appsv1.

(** ** Admission envelope *)

Record AdmissionRequest (Raw : Type) := {
  UID : string;
  Kind : string;
  Namespace : string;
  Name : string;
  Operation : string;
  Object : Raw;
  OldObject : Raw
}.
Arguments UID {Raw}.
Arguments Kind {Raw}.
Arguments Namespace {Raw}.
Arguments Name {Raw}.
Arguments Operation {Raw}.
Arguments Object {Raw}.
Arguments OldObject {Raw}.

Inductive PatchType := PatchTypeJSONPatch.

(** The response, with the type [P] of what [Patch] holds left open: the two
    webhooks build their patches differently. *)
Record AdmissionResponse (P : Type) := {
  Allowed : bool;
  Result : option metav1.Status;
  Patch : option P;
  Resp_PatchType : option PatchType
}.
Arguments Allowed {P}.
Arguments Result {P}.
Arguments Patch {P}.
Arguments Resp_PatchType {P}.

(** [&AdmissionResponse{Allowed: true}] *)
Definition allowedResponse {P} : AdmissionResponse P :=
  {| Allowed := true; Result := None; Patch := None; Resp_PatchType := None |}.

(** [&AdmissionResponse{Result: &metav1.Status{Message: msg}}] *)
Definition messageResponse {P} (msg : string) : AdmissionResponse P :=
  {| Allowed := false;
     Result := Some {| metav1.Message := msg; metav1.Reason := "" |};
     Patch := None; Resp_PatchType := None |}.

(** [&AdmissionResponse{Allowed: true, Patch: p, PatchType: &JSONPatch}] *)
Definition patchResponse {P} (p : P) : AdmissionResponse P :=
  {| Allowed := true; Result := None; Patch := Some p;
     Resp_PatchType := Some PatchTypeJSONPatch |}.

(** ** The QoS configuration resource and the shared store

    [QoSInst] is a process-wide pointer to the current [QoSpec]; the state of
    the store is the value it points to. *)

Module QoSStore.

Record QoSpec := {
  Cpu : Z;
  Memory : Z
}.

Record QoS := {
  Spec : QoSpec
}.

(** [QoSpec{}] *)
Definition zero : QoSpec := {| Cpu := 0; Memory := 0 |}.

(** Struct comparison [a == b]. *)
Definition QoSpec_eqb (a b : QoSpec) : bool :=
  ((Cpu a =? Cpu b) && (Memory a =? Memory b))%Z.

(** [QoSInst = &QoSpec{}] at start-up. *)
Definition QoSInst_init : QoSpec := zero.

Definition getQoSpec (QoSInst : QoSpec) : QoSpec :=
  if QoSpec_eqb QoSInst zero then {| Cpu := 200; Memory := 400 |}
  else QoSInst.

Definition setQoSpec (qoSpec : QoSpec) (QoSInst : QoSpec) : QoSpec :=
  qoSpec.

End QoSStore.

(** ** JSON decoding (encoding/json)

    [json.Unmarshal] of the raw object bytes into each typed view; a failure
    carries the error's message. *)

Class Codec {QL : QuantityLib} := {
  Raw : Type;
  unmarshal_Deployment : Raw -> string + appsv1.Deployment;
  unmarshal_Service : Raw -> string + corev1.Service;
  unmarshal_QoS : Raw -> string + QoSStore.QoS
}.

(** ** Structural JSON diff (github.com/wI2L/jsondiff)

    [Compare] yields the patch turning its first argument into its second;
    [json.MarshalIndent] encodes that patch. *)

Class JsonDiff {QL : QuantityLib} := {
  DiffPatch : Type;
  PatchBytes : Type;
  Compare : appsv1.Deployment -> appsv1.Deployment -> string + DiffPatch;
  MarshalIndent : DiffPatch -> string + PatchBytes
}.

(** What the diff library promises for Deployments, which are values
    decoded from JSON: encoding them, diffing and encoding the patch all
    succeed, and the encoded patch, applied to the first argument as a JSON
    Patch, yields the second.  [ApplyPatch] is that application. *)
Class JsonDiffLaws {QL : QuantityLib} {JD : JsonDiff} := {
  ApplyPatch : PatchBytes -> appsv1.Deployment -> option appsv1.Deployment;
  Compare_succeeds :
    forall a b : appsv1.Deployment, exists patch, Compare a b = inr patch;
  MarshalIndent_succeeds :
    forall patch : DiffPatch,
      exists patchBytes, MarshalIndent patch = inr patchBytes;
  ApplyPatch_Compare :
    forall (a b : appsv1.Deployment) (patch : DiffPatch)
           (patchBytes : PatchBytes),
      Compare a b = inr patch ->
      MarshalIndent patch = inr patchBytes ->
      ApplyPatch patchBytes a = Some b
}.

(** ** The HTTP side of [serve]

    Of the incoming request [serve] reads the body, the Content-Type header
    and the URL path.  [Body] is [None] when the request has no body or
    reading it failed: both leave the handler's [body] nil. *)

Record HttpRequest := {
  Body : option string;
  ContentType : string;
  URLPath : string
}.

(** The review written back: its type meta and its response, the latter
    with the UID that [serve] copies into it. *)
Record AdmissionReview (P : Type) := {
  Review_TypeMeta : metav1.TypeMeta;
  Review_Response : option (string * AdmissionResponse P)
}.
Arguments Review_TypeMeta {P}.
Arguments Review_Response {P}.

(** What one call of [serve] does to the connection when the review, once
    built, is encoded and written without error: [http.Error] with a status
    code and a message, the encoded review written with status 200, or a
    run-time panic from reading through the nil [ar.Request]. *)
Inductive HttpOutcome (P : Type) :=
| HttpError (code : nat) (message : string)
| Written (review : AdmissionReview P)
| NilRequestPanic.
Arguments HttpError {P}.
Arguments Written {P}.
Arguments NilRequestPanic {P}.

Definition StatusBadRequest : nat := 400.
Definition StatusUnsupportedMediaType : nat := 415.
Definition StatusInternalServerError : nat := 500.

(** The last two steps of [serve] are [json.Marshal] of the review and
    [w.Write] of its bytes; a [Connection] says, for one call, for which
    reviews the encoding returns an error and whether the write does. *)
Record Connection (P : Type) := {
  marshal_fails : AdmissionReview P -> bool;
  write_fails : bool
}.
Arguments marshal_fails {P}.
Arguments write_fails {P}.

(** What one call of [serve] does in general: what it does when those two
    steps succeed, or, for a review that was built but whose encoding or
    writing failed, [http.Error] with status 500 and the diagnostic log as
    message. *)
Inductive ServeOutcome (P : Type) :=
| Served (outcome : HttpOutcome P)
| InternalServerError (review : AdmissionReview P).
Arguments Served {P}.
Arguments InternalServerError {P}.

Definition finish_serve {P} (conn : Connection P) (outcome : HttpOutcome P)
    : ServeOutcome P :=
  match outcome with
  | Written review =>
      if marshal_fails conn review || write_fails conn
      then InternalServerError review
      else Served (Written review)
  | _ => Served outcome
  end.

(** [deserializer.Decode(body, nil, &ar)]: the [Request] that [ar] holds
    after the call, and the error if there is one. *)
Class ReviewCodec {QL : QuantityLib} {CD : Codec} := {
  Decode : string -> option (AdmissionRequest Raw) * option string
}.

(** ** The direct-construction webhook (admission/v1) *)

Module V1.

(** What a patch operation carries in [Value interface{}]: a string or a
    [map[string]string]. *)
Inductive PatchValue :=
| VString (s : string)
| VMap (m : gmap string string).

Record patchOperation := {
  Op : string;
  Path : string;
  Value : PatchValue
}.

Definition admissionWebhookAnnotationValidateKey : string :=
  "admission-webhook-example.qikqiak.com/validate".
Definition admissionWebhookAnnotationMutateKey : string :=
  "admission-webhook-example.qikqiak.com/mutate".
Definition admissionWebhookAnnotationStatusKey : string :=
  "admission-webhook-example.qikqiak.com/status".

Definition nameLabel : string := "app.kubernetes.io/name".
Definition instanceLabel : string := "app.kubernetes.io/instance".
Definition versionLabel : string := "app.kubernetes.io/version".
Definition componentLabel : string := "app.kubernetes.io/component".
Definition partOfLabel : string := "app.kubernetes.io/part-of".
Definition managedByLabel : string := "app.kubernetes.io/managed-by".

Definition ignoredNamespaces : list string :=
  [metav1.NamespaceSystem; metav1.NamespacePublic].

Definition requiredLabels : list string :=
  [nameLabel; instanceLabel; versionLabel; componentLabel; partOfLabel;
   managedByLabel].

Definition admissionRequired (ignoredList : list string)
    (admissionAnnotationKey : string) (metadata : metav1.ObjectMeta) : bool :=
  if existsb (String.eqb (metav1.Namespace metadata)) ignoredList then false
  else
    let annotations :=
      match metav1.GetAnnotations metadata with
      | None => Some ∅
      | Some a => Some a
      end in
    if Go.one_of (Go.ToLower (Go.index annotations admissionAnnotationKey))
         ["n"; "no"; "false"; "off"]
    then false else true.

Definition mutationRequired (ignoredList : list string)
    (metadata : metav1.ObjectMeta) : bool :=
  let required :=
    admissionRequired ignoredList admissionWebhookAnnotationMutateKey metadata in
  let annotations :=
    match metav1.GetAnnotations metadata with
    | None => Some ∅
    | Some a => Some a
    end in
  let status := Go.index annotations admissionWebhookAnnotationStatusKey in
  if String.eqb (Go.ToLower status) "mutated" then false else required.

Definition validationRequired (ignoredList : list string)
    (metadata : metav1.ObjectMeta) : bool :=
  admissionRequired ignoredList admissionWebhookAnnotationValidateKey metadata.

(** [added] is the Go map given as its entries in the order the [range]
    statement visits them.  The first missing key rebinds [target] to an
    empty map for the rest of the loop. *)
Fixpoint updateAnnotation (target : option (gmap string string))
    (added : list (string * string)) : list patchOperation :=
  match added with
  | [] => []
  | (key, value) :: rest =>
      if match target with None => true | Some _ => false end
         || String.eqb (Go.index target key) ""
      then
        {| Op := "add"; Path := "/metadata/annotations";
           Value := VMap {[ key := value ]} |}
        :: updateAnnotation (Some ∅) rest
      else
        {| Op := "replace"; Path := "/metadata/annotations/" +:+ key;
           Value := VString value |}
        :: updateAnnotation target rest
  end.

Definition NA : string := "not_available".

(** The [addLabels] map, as its entries. *)
Definition addLabels : list (string * string) :=
  [(nameLabel, NA); (instanceLabel, NA); (versionLabel, NA);
   (componentLabel, NA); (partOfLabel, NA); (managedByLabel, NA)].

(** The loop of [updateLabels], filling [values]; [target] is only read. *)
Fixpoint updateLabels_values (target : option (gmap string string))
    (added : list (string * string)) (values : gmap string string)
    : gmap string string :=
  match added with
  | [] => values
  | (key, value) :: rest =>
      if match target with None => true | Some _ => false end
         || String.eqb (Go.index target key) ""
      then updateLabels_values target rest (<[ key := value ]> values)
      else updateLabels_values target rest values
  end.

Definition updateLabels (target : option (gmap string string))
    (added : list (string * string)) : list patchOperation :=
  [ {| Op := "add"; Path := "/metadata/labels";
       Value := VMap (updateLabels_values target added ∅) |} ].

(** The operation emitted for a key taken as missing, the one emitted for
    a key taken as present, and the one [mutate] always asks for. *)
Definition addAnnotation (entry : string * string) : patchOperation :=
  {| Op := "add"; Path := "/metadata/annotations";
     Value := VMap {[ fst entry := snd entry ]} |}.

Definition replaceAnnotation (entry : string * string) : patchOperation :=
  {| Op := "replace"; Path := "/metadata/annotations/" +:+ fst entry;
     Value := VString (snd entry) |}.

Definition addStatus : patchOperation :=
  addAnnotation (admissionWebhookAnnotationStatusKey, "mutated").

(** JSON Patch (RFC 6902) as far as the annotation map of the patched
    object goes: [add] (or [replace]) at [/metadata/annotations] with an
    object value puts that object in place of whatever the member held;
    an operation under [/spec/] leaves the annotations alone.  Other
    operations are outside this fragment ([None]).  Whether an operation
    under [/spec/] applies at all is not decided here (a replace at a
    location the object lacks fails the whole patch): the result says what
    the annotations are if the patch applies. *)
Definition applyToAnnotations (op : patchOperation)
    (annotations : option (gmap string string))
    : option (option (gmap string string)) :=
  if String.eqb (Path op) "/metadata/annotations" then
    match Value op with
    | VMap m => Some (Some m)
    | VString _ => None
    end
  else if String.prefix "/spec/" (Path op) then Some annotations
  else None.

Fixpoint applyPatchToAnnotations (patch : list patchOperation)
    (annotations : option (gmap string string))
    : option (option (gmap string string)) :=
  match patch with
  | [] => Some annotations
  | op :: rest =>
      match applyToAnnotations op annotations with
      | Some annotations' => applyPatchToAnnotations rest annotations'
      | None => None
      end
  end.

Section WithLibraries.
Context {QL : QuantityLib} {SL : StringsLib}.

(** [fmt.Sprintf("/spec/template/spec/containers/%d/resources/requests/%s",
    i, strings.ToLower(string(resourceName)))] *)
Definition requestPath (i : nat) (resourceName : corev1.ResourceName)
    : string :=
  "/spec/template/spec/containers/" +:+ Go.itoa i
  +:+ "/resources/requests/" +:+ strings_ToLower resourceName.

(** The body of the inner loop of [applyResourceReduction], for the
    container at index [i] and one entry of its requests. *)
Definition reduceRequest (i : nat) (entry : corev1.ResourceName * Quantity)
    : patchOperation :=
  let '(resourceName, quantity) := entry in
  let originalValue := quantity in
  let ninetyPercentValue :=
    Go.int64_div (Go.int64_mul (MilliValue originalValue) 90) 100 in
  let ninetyPercentQuantity :=
    NewMilliQuantity ninetyPercentValue (Quantity_Format originalValue) in
  {| Op := "replace";
     Path := requestPath i resourceName;
     Value := VString (Quantity_String ninetyPercentQuantity) |}.

(** The outer loop, entered at index [i]. *)
Fixpoint applyResourceReduction_from (i : nat)
    (containers : list corev1.Container) : list patchOperation :=
  match containers with
  | [] => []
  | container :: rest =>
      map (reduceRequest i)
          (corev1.Requests (corev1.Resources container))
      ++ applyResourceReduction_from (S i) rest
  end.

Definition applyResourceReduction (containers : list corev1.Container)
    : list patchOperation :=
  applyResourceReduction_from 0 containers.

(** [json.Marshal] of a [[]patchOperation]: the values are strings and
    string maps, which always encode, so the error result is never taken.
    The encoded bytes are represented by the array they encode. *)
Definition json_Marshal (patch : list patchOperation)
    : string + list patchOperation :=
  inr patch.

Definition createPatch (availableAnnotations : option (gmap string string))
    (annotations : list (string * string))
    (containers : list corev1.Container) : string + list patchOperation :=
  let patch : list patchOperation := [] in
  let patch := patch ++ updateAnnotation availableAnnotations annotations in
  let patch := patch ++ applyResourceReduction containers in
  json_Marshal patch.

Context {CD : Codec}.

Local Abbreviation Response := (AdmissionResponse (list patchOperation)).

(** The required-label loop of [validate]: stops at the first missing key. *)
Fixpoint checkLabels (availableLabels : option (gmap string string))
    (required : list string) : bool * option metav1.Status :=
  match required with
  | [] => (true, None)
  | rl :: rest =>
      if Go.has_key availableLabels rl then checkLabels availableLabels rest
      else (false,
            Some {| metav1.Message := "";
                    metav1.Reason := "required labels are not set" |})
  end.

(** [object_of req meta containers]: the request is of a kind this webhook
    supports and its raw object decodes, to an object with metadata [meta]
    and, for a Deployment, the pod's container list [containers]. *)
Inductive object_of (req : AdmissionRequest Raw)
  : metav1.ObjectMeta -> list corev1.Container -> Prop :=
| object_of_deployment (deployment : appsv1.Deployment) :
    Kind req = "Deployment" ->
    unmarshal_Deployment (Object req) = inr deployment ->
    object_of req (appsv1.ObjectMeta deployment)
      (corev1.Containers (appsv1.Spec_Template_Spec deployment))
| object_of_service (service : corev1.Service) :
    Kind req = "Service" ->
    unmarshal_Service (Object req) = inr service ->
    object_of req (corev1.Service_ObjectMeta service) [].

(** What the kind switch of [validate] leaves behind: the labels and the
    metadata of the decoded object, or the response returned from inside
    the switch. *)
Definition validate_decode (req : AdmissionRequest Raw)
    : Response + (option (gmap string string) * metav1.ObjectMeta) :=
  if String.eqb (Kind req) "Deployment" then
    match unmarshal_Deployment (Object req) with
    | inl err => inl (messageResponse err)
    | inr deployment =>
        inr (metav1.Labels (appsv1.ObjectMeta deployment),
             appsv1.ObjectMeta deployment)
    end
  else if String.eqb (Kind req) "Service" then
    match unmarshal_Service (Object req) with
    | inl err => inl (messageResponse err)
    | inr service =>
        inr (metav1.Labels (corev1.Service_ObjectMeta service),
             corev1.Service_ObjectMeta service)
    end
  else
    inl (messageResponse
           (String "010" "Not support for this Kind of resource  "
            +:+ Kind req)).

Definition validate (req : AdmissionRequest Raw) : Response :=
  match validate_decode req with
  | inl response => response
  | inr (availableLabels, objectMeta) =>
      if negb (validationRequired ignoredNamespaces objectMeta) then
        allowedResponse
      else
        let '(allowed, result) := checkLabels availableLabels requiredLabels in
        {| Allowed := allowed; Result := result; Patch := None;
           Resp_PatchType := None |}
  end.

(** The kind switch of [mutate]: only the container list of a Deployment is
    kept; [availableAnnotations] is never assigned and stays [nil]. *)
Definition mutate_decode (req : AdmissionRequest Raw)
    : Response + list corev1.Container :=
  if String.eqb (Kind req) "Deployment" then
    match unmarshal_Deployment (Object req) with
    | inl err => inl (messageResponse err)
    | inr deployment =>
        inr (corev1.Containers (appsv1.Spec_Template_Spec deployment))
    end
  else if String.eqb (Kind req) "Service" then
    match unmarshal_Service (Object req) with
    | inl err => inl (messageResponse err)
    | inr service => inr []
    end
  else
    inl (messageResponse
           (String "010" "Not support for this Kind of resource  "
            +:+ Kind req)).

Definition mutate (req : AdmissionRequest Raw) : Response :=
  match mutate_decode req with
  | inl response => response
  | inr containers =>
      let availableAnnotations : option (gmap string string) := None in
      (* the policy check on the object's metadata is switched off here *)
      let annotations := [(admissionWebhookAnnotationStatusKey, "mutated")] in
      match createPatch availableAnnotations annotations containers with
      | inl err => messageResponse err
      | inr patchBytes => patchResponse patchBytes
      end
  end.

Context {RC : ReviewCodec}.

(** [serve] is given in two parts: [serve] below goes up to the review the
    handler builds, taking its encoding and the write to succeed;
    [serve_on] adds those two steps and their failure.

    What the decode-and-route part of [serve] leaves in
    [admissionResponse]: [Some None] is the nil pointer, [None] the panic of
    [mutate] or [validate] reading through a nil request. *)
Definition serve_route (r : HttpRequest)
    (request : option (AdmissionRequest Raw)) (err : option string)
    : option (option Response) :=
  match err with
  | Some e =>
      Some (Some (messageResponse
                    (String "010" "Can't decode body,error info is :  "
                     +:+ e)))
  | None =>
      if String.eqb (URLPath r) "/mutate" then
        match request with
        | Some req => Some (Some (mutate req))
        | None => None
        end
      else if String.eqb (URLPath r) "/validate" then
        match request with
        | Some req => Some (Some (validate req))
        | None => None
        end
      else Some None
  end.

Definition serve (r : HttpRequest) : HttpOutcome (list patchOperation) :=
  let body := match Body r with Some data => data | None => "" end in
  if (String.length body =? 0)%nat then
    HttpError StatusBadRequest "empty body"
  else
    let contentType := ContentType r in
    if negb (String.eqb contentType "application/json") then
      HttpError StatusUnsupportedMediaType
        ("Content-Type=" +:+ contentType +:+ ", expect `application/json`")
    else
      let '(request, err) := Decode body in
      match serve_route r request err with
      | None => NilRequestPanic
      | Some admissionResponse =>
          Written
            {| Review_TypeMeta :=
                 {| metav1.APIVersion := "admission.k8s.io/v1";
                    metav1.TypeMeta_Kind := "AdmissionReview" |};
               Review_Response :=
                 match admissionResponse with
                 | Some response =>
                     Some (match request with
                           | Some req => UID req
                           | None => ""
                           end, response)
                 | None => None
                 end |}
      end.

(** [serve] on a given connection: [serve] above up to the review, then its
    encoding and the write. *)
Definition serve_on (conn : Connection (list patchOperation))
    (r : HttpRequest) : ServeOutcome (list patchOperation) :=
  finish_serve conn (serve r).

End WithLibraries.
End V1.

(** ** The diff-based webhook (admission/v1beta1) *)

Module V2.
Import QoSStore.

Definition admissionWebhookAnnotationMutateKey : string :=
  "admission-webhook-example.qikqiak.com/mutate".

Definition ignoredNamespaces : list string :=
  [metav1.NamespaceSystem; metav1.NamespacePublic].

Definition mutationRequired (ignoredList : list string)
    (metadata : metav1.ObjectMeta) : bool :=
  if existsb (String.eqb (metav1.Namespace metadata)) ignoredList then false
  else
    let annotations :=
      match metav1.GetAnnotations metadata with
      | None => Some ∅
      | Some a => Some a
      end in
    if Go.one_of
         (Go.ToLower (Go.index annotations admissionWebhookAnnotationMutateKey))
         ["n"; "no"; "false"; "off"; ""]
    then false else true.

Section WithLibraries.
Context {QL : QuantityLib} {CD : Codec} {JD : JsonDiff}.

Local Abbreviation Response := (AdmissionResponse PatchBytes).

(** The synthetic init container, with its requests read from the store. *)
Definition initContainer (QoSInst : QoSpec) : corev1.Container :=
  let initConRequest : corev1.ResourceList := [] in
  let initConRequest :=
    corev1.assign corev1.ResourceCPU
      (NewMilliQuantity (Cpu (getQoSpec QoSInst)) DecimalSI) initConRequest in
  let initConRequest :=
    corev1.assign corev1.ResourceMemory
      (NewQuantity
         (Go.int64_mul (Go.int64_mul (Memory (getQoSpec QoSInst)) 1024) 1024)
         BinarySI)
      initConRequest in
  {| corev1.Name := "init";
     corev1.Image := "busybox";
     corev1.Command := ["/bin/sh"; "-c"; " echo 'init' && sleep 100 "];
     corev1.Resources := {| corev1.Requests := initConRequest |} |}.

(** The deep copy of [deploy] after the in-memory mutation. *)
Definition newDeploy (QoSInst : QoSpec) (deploy : appsv1.Deployment)
    : appsv1.Deployment :=
  let newPodSpec := appsv1.Spec_Template_Spec deploy in
  let newPodSpec :=
    if (length (corev1.InitContainers newPodSpec) =? 0)%nat then
      {| corev1.InitContainers := [initContainer QoSInst];
         corev1.Containers := corev1.Containers newPodSpec |}
    else newPodSpec in
  {| appsv1.ObjectMeta := appsv1.ObjectMeta deploy;
     appsv1.Spec_Template_Spec := newPodSpec |}.

Definition mutateDeploy (QoSInst : QoSpec) (deploy : appsv1.Deployment)
    : Response :=
  let objectMeta := appsv1.ObjectMeta deploy in
  if negb (mutationRequired ignoredNamespaces objectMeta) then allowedResponse
  else
    match Compare deploy (newDeploy QoSInst deploy) with
    | inl err => messageResponse err
    | inr patch =>
        match MarshalIndent patch with
        | inl err => messageResponse err
        | inr patchBytes => patchResponse patchBytes
        end
    end.

(** Returns the response and the new value of [QoSInst]. *)
Definition mutateQoS (qos : QoS) (operation : string) (QoSInst : QoSpec)
    : Response * QoSpec :=
  if String.eqb operation "DELETE" then
    (allowedResponse, setQoSpec zero QoSInst)
  else if negb (QoSpec_eqb (Spec qos) zero) then
    (allowedResponse, setQoSpec (Spec qos) QoSInst)
  else
    (allowedResponse, QoSInst).

Definition mutate (req : AdmissionRequest Raw) (QoSInst : QoSpec)
    : Response * QoSpec :=
  if String.eqb (Kind req) "Deployment" then
    match unmarshal_Deployment (Object req) with
    | inl err => (messageResponse err, QoSInst)
    | inr deployment => (mutateDeploy QoSInst deployment, QoSInst)
    end
  else if String.eqb (Kind req) "QoS" then
    let raw :=
      if String.eqb (Operation req) "DELETE" then OldObject req
      else Object req in
    match unmarshal_QoS raw with
    | inl err => (messageResponse err, QoSInst)
    | inr qos => mutateQoS qos (Operation req) QoSInst
    end
  else
    (messageResponse
       (String "010" "Not support for this Kind of resource  " +:+ Kind req),
     QoSInst).

(** A run of the webhook over a sequence of requests, from a given store. *)
Definition run (reqs : list (AdmissionRequest Raw)) (QoSInst : QoSpec)
    : QoSpec :=
  fold_left (fun inst req => snd (mutate req inst)) reqs QoSInst.

Context {RC : ReviewCodec}.

(** The decode-and-route part of [serve], with the store: only /mutate is
    routed. *)
Definition serve_route (r : HttpRequest)
    (request : option (AdmissionRequest Raw)) (err : option string)
    (QoSInst : QoSpec) : option (option Response * QoSpec) :=
  match err with
  | Some e =>
      Some (Some (messageResponse
                    (String "010" "Can't decode body,error info is :  "
                     +:+ e)),
            QoSInst)
  | None =>
      if String.eqb (URLPath r) "/mutate" then
        match request with
        | Some req =>
            let '(response, QoSInst') := mutate req QoSInst in
            Some (Some response, QoSInst')
        | None => None
        end
      else Some (None, QoSInst)
  end.

(** Returns what happens on the connection and the new value of
    [QoSInst]. *)
Definition serve (r : HttpRequest) (QoSInst : QoSpec)
    : HttpOutcome PatchBytes * QoSpec :=
  let body := match Body r with Some data => data | None => "" end in
  if (String.length body =? 0)%nat then
    (HttpError StatusBadRequest "empty body", QoSInst)
  else
    let contentType := ContentType r in
    if negb (String.eqb contentType "application/json") then
      (HttpError StatusUnsupportedMediaType
         ("Content-Type=" +:+ contentType +:+ ", expect `application/json`"),
       QoSInst)
    else
      let '(request, err) := Decode body in
      match serve_route r request err QoSInst with
      | None => (NilRequestPanic, QoSInst)
      | Some (admissionResponse, QoSInst') =>
          (Written
             {| Review_TypeMeta :=
                  {| metav1.APIVersion := ""; metav1.TypeMeta_Kind := "" |};
                Review_Response :=
                  match admissionResponse with
                  | Some response =>
                      Some (match request with
                            | Some req => UID req
                            | None => ""
                            end, response)
                  | None => None
                  end |},
           QoSInst')
      end.

(** [serve] on a given connection.  The store is as [mutate] left it, also
    when the review could not be encoded or written. *)
Definition serve_on (conn : Connection PatchBytes) (r : HttpRequest)
    (QoSInst : QoSpec) : ServeOutcome PatchBytes * QoSpec :=
  let '(outcome, QoSInst') := serve r QoSInst in
  (finish_serve conn outcome, QoSInst').

(** *** The store as the specification words it

    A configuration request either resets the store (delete), installs a
    non-empty spec (create or update), or leaves it alone; [get] is to
    return the default when nothing was installed since the start or since
    the last reset, and the last installed value otherwise. *)
Inductive StoreEffect :=
| Reset
| Install (spec : QoSpec)
| Keep.

Definition store_effect (req : AdmissionRequest Raw) : StoreEffect :=
  if String.eqb (Kind req) "QoS" then
    if String.eqb (Operation req) "DELETE" then
      match unmarshal_QoS (OldObject req) with
      | inr _ => Reset
      | inl _ => Keep
      end
    else
      match unmarshal_QoS (Object req) with
      | inr qos => if QoSpec_eqb (Spec qos) zero then Keep else Install (Spec qos)
      | inl _ => Keep
      end
  else Keep.

Fixpoint last_installed (effects : list StoreEffect) (current : option QoSpec)
    : option QoSpec :=
  match effects with
  | [] => current
  | Reset :: rest => last_installed rest None
  | Install spec :: rest => last_installed rest (Some spec)
  | Keep :: rest => last_installed rest current
  end.

Definition spec_get (effects : list StoreEffect) : QoSpec :=
  match last_installed effects None with
  | None => {| Cpu := 200; Memory := 400 |}
  | Some spec => spec
  end.

End WithLibraries.
End V2.

(** ** Reference instances of the library interfaces

    Small executable instances, used to run the webhooks on concrete
    requests. *)

Module Reference.

(** Lower-casing of ASCII letters alone; it agrees with [strings.ToLower]
    on ASCII strings, which is all the runs below use. *)
Definition AsciiLower : StringsLib := {|
  strings_ToLower := Go.ToLower
|}.
#[local] Existing Instance AsciiLower.

(** Quantities as an exact count of milli-units with a format tag, printed
    as that count followed by [m], and as [0] when the count is zero.  The
    library chooses a canonical suffix instead; the runs below only rely on
    different counts printing differently. *)
Record milli := {
  milli_value : Z;
  milli_format : Format
}.

Definition MilliQuantity : QuantityLib := {|
  Quantity := milli;
  Quantity_Format := milli_format;
  MilliValue := milli_value;
  NewMilliQuantity := fun v f => {| milli_value := v; milli_format := f |};
  NewQuantity := fun v f => {| milli_value := v * 1000; milli_format := f |};
  Quantity_String := fun q =>
    if (milli_value q =? 0)%Z then "0" else pretty (milli_value q) +:+ "m"
|}.
#[local] Existing Instance MilliQuantity.

(** Raw objects that are already parsed documents. *)
Inductive Document :=
| DocDeployment (d : appsv1.Deployment)
| DocService (s : corev1.Service)
| DocQoS (q : QoSStore.QoS)
| DocMalformed (err : string).

Definition TypedCodec : Codec := {|
  Raw := Document;
  unmarshal_Deployment := fun raw =>
    match raw with
    | DocDeployment d => inr d
    | DocMalformed err => inl err
    | _ => inl "json: cannot unmarshal object"
    end;
  unmarshal_Service := fun raw =>
    match raw with
    | DocService s => inr s
    | DocMalformed err => inl err
    | _ => inl "json: cannot unmarshal object"
    end;
  unmarshal_QoS := fun raw =>
    match raw with
    | DocQoS q => inr q
    | DocMalformed err => inl err
    | _ => inl "json: cannot unmarshal object"
    end
|}.

(** A diff that reports the init containers of the new object when their
    number changed. *)
Definition InitDiff : JsonDiff := {|
  DiffPatch := list corev1.Container;
  PatchBytes := list corev1.Container;
  Compare := fun old new =>
    let before := corev1.InitContainers (appsv1.Spec_Template_Spec old) in
    let after := corev1.InitContainers (appsv1.Spec_Template_Spec new) in
    inr (if (length before =? length after)%nat then [] else after);
  MarshalIndent := fun patch => inr patch
|}.

#[local] Existing Instances TypedCodec InitDiff.

Definition meta (namespace : string)
    (labels annotations : option (gmap string string)) : metav1.ObjectMeta :=
  {| metav1.Name := "web"; metav1.Namespace := namespace;
     metav1.Labels := labels; metav1.Annotations := annotations |}.

Definition container (requests : list (string * milli))
    : corev1.Container :=
  {| corev1.Name := "app"; corev1.Image := "nginx"; corev1.Command := [];
     corev1.Resources := {| corev1.Requests := requests |} |}.

Definition deployment (m : metav1.ObjectMeta)
    (containers : list corev1.Container) : appsv1.Deployment :=
  {| appsv1.ObjectMeta := m;
     appsv1.Spec_Template_Spec :=
       {| corev1.InitContainers := []; corev1.Containers := containers |} |}.

Definition request (kind operation : string) (object : Document)
    : AdmissionRequest Document :=
  {| UID := "uid-1"; Kind := kind; Namespace := "default"; Name := "web";
     Operation := operation; Object := object; OldObject := object |}.

Definition quantity (v : Z) (f : Format) : milli :=
  {| milli_value := v; milli_format := f |}.

Definition all_labels : option (gmap string string) :=
  Some (list_to_map (map (fun k => (k, "web")) V1.requiredLabels)).

(** A labelled Deployment in the default namespace that opts in to
    mutation, with a cpu request of one core and a memory request of
    128Mi. *)
Definition web_deployment : appsv1.Deployment :=
  deployment
    (meta "default" all_labels
       (Some {[ V2.admissionWebhookAnnotationMutateKey := "yes" ]}))
    [container [("cpu", quantity 1000 DecimalSI);
                ("memory", quantity 134217728000 BinarySI)]].

(** Objects in the exempt namespaces. *)
Definition system_deployment : appsv1.Deployment :=
  deployment (meta "kube-system" None None)
    [container [("cpu", quantity 1000 DecimalSI)]].

Definition public_service : corev1.Service :=
  {| corev1.Service_ObjectMeta := meta "kube-public" None None |}.

(** Deployments whose requests are negative, very large (100Ti of memory),
    or named alike up to case. *)
Definition negative_deployment : appsv1.Deployment :=
  deployment (meta "default" None None)
    [container [("cpu", quantity (-1) DecimalSI)]].

Definition huge_deployment : appsv1.Deployment :=
  deployment (meta "default" None None)
    [container [("memory", quantity 109951162777600000 BinarySI)]].

Definition mixed_case_deployment : appsv1.Deployment :=
  deployment (meta "default" None None)
    [container [("cpu", quantity 1000 DecimalSI);
                ("CPU", quantity 1000 DecimalSI)]].

(** A Deployment without resource requests, before and after the status
    annotation was put on it. *)
Definition plain_deployment : appsv1.Deployment :=
  deployment (meta "default" None (Some {[ "team" := "a" ]})) [container []].

Definition marked_deployment : appsv1.Deployment :=
  deployment
    (meta "default" None
       (Some {[ V1.admissionWebhookAnnotationStatusKey := "mutated" ]}))
    [container []].

(** Metadata used to probe the mutation policy. *)
Definition bare_meta : metav1.ObjectMeta := meta "default" None None.

Definition marked_opt_in_meta : metav1.ObjectMeta :=
  meta "default" None
    (Some {[ V1.admissionWebhookAnnotationMutateKey := "yes";
             V1.admissionWebhookAnnotationStatusKey := "mutated" ]}).

Definition opt_out_meta : metav1.ObjectMeta :=
  meta "default" None
    (Some {[ V1.admissionWebhookAnnotationMutateKey := "No" ]}).

(** A review decoder by table: two bodies decode, to a review carrying a
    request for the sample Deployment and to a review without a request;
    every other body fails. *)
Definition TableDecoder : ReviewCodec := {|
  Decode := fun body =>
    if String.eqb body "web-review" then
      (Some (request "Deployment" "CREATE" (DocDeployment web_deployment)),
       None)
    else if String.eqb body "bare-review" then (None, None)
    else (None, Some "couldn't get version/kind; json parse error")
|}.

Definition post (body contentType path : string) : HttpRequest :=
  {| Body := Some body; ContentType := contentType; URLPath := path |}.

(** A diff that replaces the whole document: its patch is the new object,
    and applying it yields that object.  It keeps the library's promises. *)
Definition WholeDocumentDiff : JsonDiff := {|
  DiffPatch := appsv1.Deployment;
  PatchBytes := appsv1.Deployment;
  Compare := fun _ new => inr new;
  MarshalIndent := fun patch => inr patch
|}.

Definition right_of (x : string + appsv1.Deployment)
    : option appsv1.Deployment :=
  match x with
  | inr d => Some d
  | inl _ => None
  end.

Definition WholeDocumentDiffLaws : @JsonDiffLaws MilliQuantity WholeDocumentDiff
  := {|
  ApplyPatch := fun (patchBytes : @PatchBytes _ WholeDocumentDiff) _ =>
                  Some patchBytes;
  Compare_succeeds := fun _ b => ex_intro _ b eq_refl;
  MarshalIndent_succeeds := fun patch => ex_intro _ patch eq_refl;
  ApplyPatch_Compare := fun _ b patch patchBytes Hcmp Henc =>
    eq_sym (eq_trans (f_equal right_of Hcmp) (f_equal right_of Henc))
|}.

(** A diff that always fails. *)
Definition FailingDiff : JsonDiff := {|
  DiffPatch := list corev1.Container;
  PatchBytes := list corev1.Container;
  Compare := fun _ _ => inl "diff failed";
  MarshalIndent := fun patch => inr patch
|}.

(** The sample Deployment with an init container of its own. *)
Definition initialized_deployment : appsv1.Deployment :=
  {| appsv1.ObjectMeta := appsv1.ObjectMeta web_deployment;
     appsv1.Spec_Template_Spec :=
       {| corev1.InitContainers := [container []];
          corev1.Containers :=
            corev1.Containers (appsv1.Spec_Template_Spec web_deployment) |} |}.

(** Configuration requests for cpu 500, memory 800, and a request whose
    object does not parse. *)
Definition qos_500_800 : QoSStore.QoS :=
  {| QoSStore.Spec := {| QoSStore.Cpu := 500; QoSStore.Memory := 800 |} |}.

Definition qos_update : AdmissionRequest Document :=
  request "QoS" "UPDATE" (DocQoS qos_500_800).

Definition qos_delete : AdmissionRequest Document :=
  request "QoS" "DELETE" (DocQoS qos_500_800).

(** An unlabelled Deployment that opts out of validation. *)
Definition opted_out_deployment : appsv1.Deployment :=
  deployment
    (meta "default" None
       (Some {[ V1.admissionWebhookAnnotationValidateKey := "Off" ]}))
    [].

Definition malformed_deployment : AdmissionRequest Document :=
  request "Deployment" "CREATE" (DocMalformed "unexpected end of JSON input").

End Reference.

(** * Properties *)

(** ** Go primitives *)

Section GoFacts.

Lemma existsb_eqb_In (x : string) (l : list string) :
  existsb (String.eqb x) l = true <-> In x l.
Proof.
  rewrite existsb_exists. split.
  - intros (y & Hy & Heq). apply String.eqb_eq in Heq. now subst.
  - intros Hin. exists x. split; [assumption | apply String.eqb_refl].
Qed.

Lemma existsb_eqb_not_In (x : string) (l : list string) :
  existsb (String.eqb x) l = false <-> ~ In x l.
Proof.
  rewrite <- existsb_eqb_In. destruct (existsb _ l); split; congruence.
Qed.

Lemma one_of_In (s : string) (cases : list string) :
  Go.one_of s cases = true <-> In s cases.
Proof. apply existsb_eqb_In. Qed.

Lemma one_of_not_In (s : string) (cases : list string) :
  Go.one_of s cases = false <-> ~ In s cases.
Proof. apply existsb_eqb_not_In. Qed.

(** Replacing a nil map by an empty one does not change what indexing
    returns. *)
Lemma index_nil_as_empty (m : option (gmap string string)) (k : string) :
  Go.index (match m with None => Some ∅ | Some a => Some a end) k
  = Go.index m k.
Proof. destruct m as [m|]; simpl; [reflexivity | now rewrite lookup_empty]. Qed.

Lemma index_empty (k : string) : Go.index (Some ∅) k = "".
Proof. simpl. now rewrite lookup_empty. Qed.

Lemma ToLower_empty (s : string) : Go.ToLower s = "" <-> s = "".
Proof. destruct s; simpl; split; congruence. Qed.

Lemma int64_wrap_id (z : Z) :
  Go.int64_min <= z <= Go.int64_max -> Go.int64_wrap z = z.
Proof.
  unfold Go.int64_min, Go.int64_max, Go.int64_wrap. intros H.
  rewrite Z.mod_small; lia.
Qed.

End GoFacts.

(** ** Policy gate *)

Section PolicyGate.

Lemma V1_admissionRequired_exempt (key : string) (meta : metav1.ObjectMeta) :
  In (metav1.Namespace meta) V1.ignoredNamespaces ->
  V1.admissionRequired V1.ignoredNamespaces key meta = false.
Proof.
  intros Hin. unfold V1.admissionRequired.
  apply existsb_eqb_In in Hin. now rewrite Hin.
Qed.

Lemma V1_admissionRequired_open (key : string) (meta : metav1.ObjectMeta) :
  ~ In (metav1.Namespace meta) V1.ignoredNamespaces ->
  V1.admissionRequired V1.ignoredNamespaces key meta
  = negb (Go.one_of (Go.ToLower (Go.index (metav1.Annotations meta) key))
            ["n"; "no"; "false"; "off"]).
Proof.
  intros Hout. unfold V1.admissionRequired.
  apply existsb_eqb_not_In in Hout. rewrite Hout.
  unfold metav1.GetAnnotations. rewrite index_nil_as_empty.
  now destruct (Go.one_of _ _).
Qed.

Lemma V2_mutationRequired_exempt (meta : metav1.ObjectMeta) :
  In (metav1.Namespace meta) V2.ignoredNamespaces ->
  V2.mutationRequired V2.ignoredNamespaces meta = false.
Proof.
  intros Hin. unfold V2.mutationRequired.
  apply existsb_eqb_In in Hin. now rewrite Hin.
Qed.

(** [C6], as amended.  Outside the exempt namespaces the two webhooks decide
    differently.  The direct-construction one answers "not required" exactly
    when the lower-cased mutate annotation is one of n, no, false, off, or
    the lower-cased status annotation is "mutated"; an empty or absent
    mutate annotation leaves mutation required.  The diff-based one answers
    "not required" exactly when the lower-cased mutate annotation is one of
    n, no, false, off or empty; it does not look at the status
    annotation. *)
Theorem mutationRequired_policy (meta : metav1.ObjectMeta) :
  ~ In (metav1.Namespace meta) [metav1.NamespaceSystem; metav1.NamespacePublic] ->
  (V1.mutationRequired V1.ignoredNamespaces meta = false <->
     In (Go.ToLower (Go.index (metav1.Annotations meta)
                       V1.admissionWebhookAnnotationMutateKey))
        ["n"; "no"; "false"; "off"]
     \/ Go.ToLower (Go.index (metav1.Annotations meta)
                      V1.admissionWebhookAnnotationStatusKey) = "mutated")
  /\
  (V2.mutationRequired V2.ignoredNamespaces meta = false <->
     In (Go.ToLower (Go.index (metav1.Annotations meta)
                       V2.admissionWebhookAnnotationMutateKey))
        ["n"; "no"; "false"; "off"; ""]).
Proof.
  intros Hout. split.
  - unfold V1.mutationRequired.
    rewrite (V1_admissionRequired_open _ _ Hout).
    unfold metav1.GetAnnotations. rewrite index_nil_as_empty.
    destruct (String.eqb_spec
                (Go.ToLower (Go.index (metav1.Annotations meta)
                               V1.admissionWebhookAnnotationStatusKey))
                "mutated") as [Hst | Hst].
    + split; [intros _; now right | reflexivity].
    + rewrite negb_false_iff, one_of_In. split.
      * intros H; now left.
      * intros [H | H]; [assumption | contradiction].
  - unfold V2.mutationRequired.
    apply existsb_eqb_not_In in Hout. unfold V2.ignoredNamespaces. rewrite Hout.
    unfold metav1.GetAnnotations. rewrite index_nil_as_empty.
    rewrite <- one_of_In.
    destruct (Go.one_of _ _); split; congruence.
Qed.

End PolicyGate.

(** ** Kind dispatch and the validation path *)

Section Dispatch.
Context {QL : QuantityLib} {SL : StringsLib} {CD : Codec} {JD : JsonDiff}.

Lemma object_of_validate_decode (req : AdmissionRequest Raw)
    (meta : metav1.ObjectMeta) (containers : list corev1.Container) :
  V1.object_of req meta containers ->
  V1.validate_decode req = inr (metav1.Labels meta, meta).
Proof.
  intros [d Hk Hd | s Hk Hs]; unfold V1.validate_decode; rewrite Hk; simpl.
  - now rewrite Hd.
  - now rewrite Hs.
Qed.

Lemma object_of_mutate_decode (req : AdmissionRequest Raw)
    (meta : metav1.ObjectMeta) (containers : list corev1.Container) :
  V1.object_of req meta containers ->
  V1.mutate_decode req = inr containers.
Proof.
  intros [d Hk Hd | s Hk Hs]; unfold V1.mutate_decode; rewrite Hk; simpl.
  - now rewrite Hd.
  - now rewrite Hs.
Qed.

(** The status annotation that [mutate] asks to add. *)
Lemma mutate_patch (req : AdmissionRequest Raw)
    (meta : metav1.ObjectMeta) (containers : list corev1.Container) :
  V1.object_of req meta containers ->
  V1.mutate req
  = patchResponse
      ({| V1.Op := "add"; V1.Path := "/metadata/annotations";
          V1.Value :=
            V1.VMap {[ V1.admissionWebhookAnnotationStatusKey := "mutated" ]} |}
       :: V1.applyResourceReduction containers).
Proof.
  intros Hobj. unfold V1.mutate.
  now rewrite (object_of_mutate_decode _ _ _ Hobj).
Qed.

(** The label loop either finds every required key or stops at a missing
    one. *)
Lemma checkLabels_cases (labels : option (gmap string string))
    (required : list string) :
  ((forall rl, In rl required -> is_Some (labels ≫= (.!! rl)))
   /\ V1.checkLabels labels required = (true, None))
  \/ (~ (forall rl, In rl required -> is_Some (labels ≫= (.!! rl)))
      /\ V1.checkLabels labels required
         = (false, Some {| metav1.Message := "";
                           metav1.Reason := "required labels are not set" |})).
Proof.
  induction required as [| rl rest IH]; simpl.
  - left. split; [intros rl [] | reflexivity].
  - destruct (Go.has_key labels rl) eqn:Hrl.
    + assert (Hsome : is_Some (labels ≫= (.!! rl))).
      { destruct labels as [m |]; simpl in *; [| discriminate].
        now apply bool_decide_eq_true in Hrl. }
      destruct IH as [[Hall Hc] | [Hmiss Hc]]; [left | right];
        (split; [| assumption]).
      * intros rl' [<- | Hin]; [assumption | now apply Hall].
      * intros Hall. apply Hmiss. intros rl' Hin. apply Hall. now right.
    + right. split; [| reflexivity].
      intros Hall. specialize (Hall rl (or_introl eq_refl)).
      destruct labels as [m |]; simpl in *.
      * apply bool_decide_eq_false in Hrl. contradiction.
      * now destruct Hall.
Qed.

(** [C4].  For an object of a supported kind for which validation is
    required (so outside the exempt namespaces), [validate] allows the
    request, with no result and no patch, exactly when every required label
    key is present in the object's label map, whatever its value; when a
    required key is missing it answers allowed=false with the reason
    "required labels are not set" and no patch. *)
Theorem validate_required_labels (req : AdmissionRequest Raw)
    (meta : metav1.ObjectMeta) (containers : list corev1.Container) :
  V1.object_of req meta containers ->
  V1.validationRequired V1.ignoredNamespaces meta = true ->
  let all_present :=
    forall rl, In rl V1.requiredLabels ->
               is_Some (metav1.Labels meta ≫= (.!! rl)) in
  (Allowed (V1.validate req) = true <-> all_present)
  /\ (all_present ->
      V1.validate req
      = {| Allowed := true; Result := None; Patch := None;
           Resp_PatchType := None |})
  /\ (~ all_present ->
      V1.validate req
      = {| Allowed := false;
           Result := Some {| metav1.Message := "";
                             metav1.Reason := "required labels are not set" |};
           Patch := None; Resp_PatchType := None |}).
Proof.
  intros Hobj Hreq all_present.
  assert (Hv : V1.validate req
               = let '(allowed, result) :=
                   V1.checkLabels (metav1.Labels meta) V1.requiredLabels in
                 {| Allowed := allowed; Result := result; Patch := None;
                    Resp_PatchType := None |}).
  { unfold V1.validate.
    now rewrite (object_of_validate_decode _ _ _ Hobj), Hreq. }
  rewrite Hv.
  destruct (checkLabels_cases (metav1.Labels meta) V1.requiredLabels)
    as [[Hall Hc] | [Hmiss Hc]]; rewrite Hc; cbv beta iota; simpl Allowed.
  - repeat split; try tauto.
  - repeat split; try tauto; try discriminate.
Qed.

(** [C9].  A request whose kind is outside the supported set is answered,
    by [validate] and by both [mutate]s, with a response that leaves
    allowed unset (false), carries no patch, and whose result message is
    the not-supported text followed by the kind; the store is left as it
    was.  The supported kinds are Deployment and Service for the
    direct-construction webhook, Deployment and QoS for the diff-based
    one. *)
Theorem unsupported_kind_rejected (req : AdmissionRequest Raw)
    (QoSInst : QoSStore.QoSpec) :
  Kind req <> "Deployment" ->
  let rejection {P} : AdmissionResponse P :=
    {| Allowed := false;
       Result :=
         Some {| metav1.Message :=
                   String "010" "Not support for this Kind of resource  "
                   +:+ Kind req;
                 metav1.Reason := "" |};
       Patch := None; Resp_PatchType := None |} in
  (Kind req <> "Service" ->
   V1.validate req = rejection /\ V1.mutate req = rejection)
  /\ (Kind req <> "QoS" -> V2.mutate req QoSInst = (rejection, QoSInst)).
Proof.
  intros Hd rejection. apply String.eqb_neq in Hd. split.
  - intros Hs. apply String.eqb_neq in Hs.
    unfold V1.validate, V1.validate_decode, V1.mutate, V1.mutate_decode.
    rewrite Hd, Hs. split; reflexivity.
  - intros Hq. apply String.eqb_neq in Hq.
    unfold V2.mutate. rewrite Hd, Hq. reflexivity.
Qed.

(** [C1], as amended.  For a request of a supported kind whose object
    decodes and lies in an exempt namespace, [validate] answers
    allowed=true with no patch and no result whatever the labels,
    annotations and content, and so does the diff-based [mutate] for a
    Deployment, leaving the store untouched.  The direct-construction
    [mutate] does not look at the namespace: it answers allowed=true
    together with its patch. *)
Theorem exempt_namespace_short_circuit
    (req : AdmissionRequest Raw) (meta : metav1.ObjectMeta)
    (containers : list corev1.Container)
    (req2 : AdmissionRequest Raw) (deployment : appsv1.Deployment)
    (QoSInst : QoSStore.QoSpec) :
  V1.object_of req meta containers ->
  In (metav1.Namespace meta) V1.ignoredNamespaces ->
  Kind req2 = "Deployment" ->
  unmarshal_Deployment (Object req2) = inr deployment ->
  In (metav1.Namespace (appsv1.ObjectMeta deployment)) V2.ignoredNamespaces ->
  V1.validate req
  = {| Allowed := true; Result := None; Patch := None;
       Resp_PatchType := None |}
  /\ V2.mutate req2 QoSInst
     = ({| Allowed := true; Result := None; Patch := None;
           Resp_PatchType := None |}, QoSInst)
  /\ Allowed (V1.mutate req) = true
  /\ Result (V1.mutate req) = None
  /\ exists patch, Patch (V1.mutate req) = Some patch /\ patch <> [].
Proof.
  intros Hobj Hns Hk Hd Hns2. repeat split.
  - unfold V1.validate. rewrite (object_of_validate_decode _ _ _ Hobj).
    unfold V1.validationRequired.
    now rewrite (V1_admissionRequired_exempt _ _ Hns).
  - unfold V2.mutate. rewrite Hk. simpl. rewrite Hd.
    unfold V2.mutateDeploy. now rewrite (V2_mutationRequired_exempt _ Hns2).
  - now rewrite (mutate_patch _ _ _ Hobj).
  - now rewrite (mutate_patch _ _ _ Hobj).
  - rewrite (mutate_patch _ _ _ Hobj). eexists. split; [reflexivity | discriminate].
Qed.

End Dispatch.

(** ** The shared QoS store *)

Section Store.
Context {QL : QuantityLib} {CD : Codec} {JD : JsonDiff}.
Import QoSStore.

Lemma QoSpec_eqb_eq (a b : QoSpec) : QoSpec_eqb a b = true <-> a = b.
Proof.
  unfold QoSpec_eqb. rewrite andb_true_iff, !Z.eqb_eq.
  destruct a, b; simpl. split.
  - intros [-> ->]. reflexivity.
  - intros [= -> ->]. split; reflexivity.
Qed.

Lemma QoSpec_eqb_neq (a b : QoSpec) : QoSpec_eqb a b = false <-> a <> b.
Proof.
  rewrite <- QoSpec_eqb_eq. destruct (QoSpec_eqb a b); split; congruence.
Qed.

Lemma getQoSpec_zero : getQoSpec zero = {| Cpu := 200; Memory := 400 |}.
Proof. reflexivity. Qed.

Lemma getQoSpec_set (spec : QoSpec) :
  spec <> zero -> getQoSpec spec = spec.
Proof.
  intros Hne. unfold getQoSpec. apply QoSpec_eqb_neq in Hne. now rewrite Hne.
Qed.

(** One request moves the store as its effect says. *)
Lemma mutate_store_effect (req : AdmissionRequest Raw) (QoSInst : QoSpec) :
  snd (V2.mutate req QoSInst)
  = match V2.store_effect req with
    | V2.Reset => zero
    | V2.Install spec => spec
    | V2.Keep => QoSInst
    end.
Proof.
  unfold V2.mutate, V2.store_effect, V2.mutateQoS, setQoSpec.
  destruct (String.eqb (Kind req) "Deployment") eqn:Hd.
  - apply String.eqb_eq in Hd. rewrite Hd. simpl.
    now destruct (unmarshal_Deployment (Object req)).
  - destruct (String.eqb (Kind req) "QoS"); [| reflexivity].
    destruct (String.eqb (Operation req) "DELETE").
    + now destruct (unmarshal_QoS (OldObject req)).
    + destruct (unmarshal_QoS (Object req)) as [err | qos]; [reflexivity |].
      now destruct (QoSpec_eqb (Spec qos) zero).
Qed.

(** The store holds the last installed spec, or the zero sentinel. *)
Lemma run_last_installed (reqs : list (AdmissionRequest Raw))
    (QoSInst : QoSpec) (current : option QoSpec) :
  match current with
  | None => QoSInst = zero
  | Some spec => QoSInst = spec /\ spec <> zero
  end ->
  match V2.last_installed (map V2.store_effect reqs) current with
  | None => V2.run reqs QoSInst = zero
  | Some spec => V2.run reqs QoSInst = spec /\ spec <> zero
  end.
Proof.
  revert QoSInst current.
  induction reqs as [| req rest IH]; intros QoSInst current Hinv; simpl.
  - exact Hinv.
  - unfold V2.run in *. simpl. rewrite mutate_store_effect.
    pose proof (IH zero None eq_refl) as IHreset.
    pose proof (fun spec H => IH spec (Some spec) (conj eq_refl H)) as IHinst.
    pose proof (IH QoSInst current Hinv) as IHkeep.
    unfold V2.store_effect in *.
    destruct (String.eqb (Kind req) "QoS"); [| exact IHkeep].
    destruct (String.eqb (Operation req) "DELETE").
    + destruct (unmarshal_QoS (OldObject req)); [exact IHkeep | exact IHreset].
    + destruct (unmarshal_QoS (Object req)) as [err | qos]; [exact IHkeep |].
      destruct (QoSpec_eqb (Spec qos) zero) eqn:Hz; [exact IHkeep |].
      apply IHinst. now apply QoSpec_eqb_neq.
Qed.

(** [C5].  [get] returns the default cpu 200, memory 400 for the store as it
    is at start-up and after a delete-type configuration request, which
    resets the store to the zero sentinel; after [set] of a non-zero value
    it returns that value; a create- or update-type configuration request
    with a non-empty spec installs that spec wholesale.  Over any sequence
    of requests, [get] returns what the specification's reading of the
    sequence says. *)
Theorem qos_store_get :
  getQoSpec QoSInst_init = {| Cpu := 200; Memory := 400 |}
  /\ (forall (qos : QoS) (QoSInst : QoSpec),
        snd (V2.mutateQoS qos "DELETE" QoSInst) = zero
        /\ getQoSpec (snd (V2.mutateQoS qos "DELETE" QoSInst))
           = {| Cpu := 200; Memory := 400 |})
  /\ (forall (spec QoSInst : QoSpec),
        spec <> zero -> getQoSpec (setQoSpec spec QoSInst) = spec)
  /\ (forall (qos : QoS) (operation : string) (QoSInst : QoSpec),
        operation <> "DELETE" -> Spec qos <> zero ->
        snd (V2.mutateQoS qos operation QoSInst) = Spec qos
        /\ getQoSpec (snd (V2.mutateQoS qos operation QoSInst)) = Spec qos)
  /\ (forall reqs : list (AdmissionRequest Raw),
        getQoSpec (V2.run reqs QoSInst_init)
        = V2.spec_get (map V2.store_effect reqs)).
Proof.
  split; [reflexivity |].
  split; [intros qos QoSInst; split; reflexivity |].
  split; [intros spec QoSInst Hne; now apply getQoSpec_set |].
  split.
  - intros qos operation QoSInst Hop Hne.
    unfold V2.mutateQoS, setQoSpec.
    apply String.eqb_neq in Hop. rewrite Hop.
    pose proof Hne as Hne'. apply QoSpec_eqb_neq in Hne'. rewrite Hne'. simpl.
    split; [reflexivity | now apply getQoSpec_set].
  - intros reqs. unfold V2.spec_get.
    pose proof (run_last_installed reqs QoSInst_init None eq_refl) as H.
    destruct (V2.last_installed (map V2.store_effect reqs) None) as [spec |].
    + destruct H as [-> Hne]. now apply getQoSpec_set.
    + now rewrite H.
Qed.

End Store.

(** ** Init-container injection *)

Section Injection.
Context {QL : QuantityLib} {CD : Codec} {JD : JsonDiff}.
Import QoSStore.

Lemma memory_bytes_exact (memory : Z) :
  Go.int64_min <= memory * 1024 * 1024 <= Go.int64_max ->
  Go.int64_mul (Go.int64_mul memory 1024) 1024 = memory * 1024 * 1024.
Proof.
  intros H. unfold Go.int64_mul.
  rewrite (int64_wrap_id (memory * 1024)).
  - now apply int64_wrap_id.
  - unfold Go.int64_min, Go.int64_max in *. lia.
Qed.

Context {JL : JsonDiffLaws}.


End Injection.

(** ** Resource-quantity reduction *)

Section Reduction.
Context {QL : QuantityLib} {SL : StringsLib}.

(** A decimal numeral followed by a slash determines the numeral and what
    follows the slash. *)
Lemma string_of_uint_slash_inj (d d' : Decimal.uint) (s s' : string) :
  NilEmpty.string_of_uint d +:+ String "/" s
  = NilEmpty.string_of_uint d' +:+ String "/" s' ->
  d = d' /\ s = s'.
Proof.
  revert d'. induction d as [| d IH | d IH | d IH | d IH | d IH | d IH
                              | d IH | d IH | d IH | d IH];
    intros [| d' | d' | d' | d' | d' | d' | d' | d' | d' | d'];
    simpl; intros H; try discriminate H;
    injection H as H;
    try (destruct (IH _ H) as [-> ->]); auto.
Qed.

Lemma itoa_slash_inj (i j : nat) (s s' : string) :
  Go.itoa i +:+ String "/" s = Go.itoa j +:+ String "/" s' ->
  i = j /\ s = s'.
Proof.
  unfold Go.itoa. intros H.
  apply string_of_uint_slash_inj in H as [H ->].
  split; [now apply DecimalNat.Unsigned.to_uint_inj | reflexivity].
Qed.

(** Two request paths agree exactly when the container indices agree and
    the resource names agree up to case. *)
Lemma requestPath_inj (i j : nat) (r r' : corev1.ResourceName) :
  V1.requestPath i r = V1.requestPath j r'
  <-> i = j /\ strings_ToLower r = strings_ToLower r'.
Proof.
  unfold V1.requestPath. split.
  - intros H. apply (inj (String.app _)) in H.
    apply itoa_slash_inj in H as [-> H].
    split; [reflexivity |]. now apply (inj (String.app "resources/requests/")) in H.
  - intros [-> ->]. reflexivity.
Qed.

Lemma reduceRequest_path (i : nat) (entry : corev1.ResourceName * Quantity) :
  V1.Path (V1.reduceRequest i entry) = V1.requestPath i (fst entry).
Proof. now destruct entry. Qed.

Lemma filter_reduce_same (i : nat) (r : corev1.ResourceName)
    (requests : corev1.ResourceList) :
  filter (fun op => V1.Path op = V1.requestPath i r)
         (map (V1.reduceRequest i) requests)
  = map (V1.reduceRequest i)
        (filter (fun e => strings_ToLower (fst e) = strings_ToLower r) requests).
Proof.
  induction requests as [| e rest IH]; [reflexivity |].
  simpl map.
  destruct (decide (strings_ToLower (fst e) = strings_ToLower r)) as [Hl | Hl].
  - rewrite (filter_cons_True (fun e => strings_ToLower (fst e) = strings_ToLower r))
      by assumption.
    rewrite filter_cons_True, IH; [reflexivity |].
    rewrite reduceRequest_path. now apply requestPath_inj.
  - rewrite (filter_cons_False (fun e => strings_ToLower (fst e) = strings_ToLower r))
      by assumption.
    rewrite filter_cons_False, IH; [reflexivity |].
    rewrite reduceRequest_path. intros Hp.
    apply requestPath_inj in Hp as [_ Hp]. contradiction.
Qed.

Lemma filter_reduce_other (i k : nat) (r : corev1.ResourceName)
    (requests : corev1.ResourceList) :
  i <> k ->
  filter (fun op => V1.Path op = V1.requestPath i r)
         (map (V1.reduceRequest k) requests) = [].
Proof.
  intros Hne. induction requests as [| e rest IH]; [reflexivity |].
  simpl map. rewrite filter_cons, IH, reduceRequest_path.
  destruct (decide _) as [Hp | Hp]; [| reflexivity].
  apply requestPath_inj in Hp as [-> _]. contradiction.
Qed.

Lemma filter_from_later (i k : nat) (r : corev1.ResourceName)
    (containers : list corev1.Container) :
  (i < k)%nat ->
  filter (fun op => V1.Path op = V1.requestPath i r)
         (V1.applyResourceReduction_from k containers) = [].
Proof.
  revert k. induction containers as [| c rest IH]; intros k Hlt; simpl;
    [reflexivity |].
  rewrite filter_app, filter_reduce_other by lia.
  rewrite IH by lia. reflexivity.
Qed.

(** The operations at the path of container [k + n] and resource [r] are
    those built from that container's entries named [r] up to case. *)
Lemma filter_from_at (k n : nat) (r : corev1.ResourceName)
    (containers : list corev1.Container) (c : corev1.Container) :
  containers !! n = Some c ->
  filter (fun op => V1.Path op = V1.requestPath (k + n) r)
         (V1.applyResourceReduction_from k containers)
  = map (V1.reduceRequest (k + n))
        (filter (fun e => strings_ToLower (fst e) = strings_ToLower r)
                (corev1.Requests (corev1.Resources c))).
Proof.
  revert k n. induction containers as [| c' rest IH]; intros k n Hc;
    [discriminate |].
  simpl. rewrite filter_app. destruct n as [| n]; simpl in Hc.
  - injection Hc as ->. rewrite Nat.add_0_r.
    rewrite filter_reduce_same, filter_from_later by lia.
    now rewrite app_nil_r.
  - rewrite filter_reduce_other by lia. simpl.
    replace (k + S n)%nat with (S k + n)%nat by lia.
    now apply IH.
Qed.

(** In a list whose images under [f] are pairwise distinct, an element is
    the only one with its image. *)
Lemma filter_unique_image {A B : Type} `{EqDecision B} (f : A -> B)
    (l : list A) (x : A) :
  NoDup (map f l) -> In x l ->
  filter (fun e => f e = f x) l = [x].
Proof.
  induction l as [| e rest IH]; intros Hnd Hin; [destruct Hin |].
  simpl in Hnd. apply NoDup_cons in Hnd as [Hfresh Hnd].
  rewrite filter_cons. destruct Hin as [-> | Hin].
  - rewrite decide_True by reflexivity. f_equal.
    clear IH Hnd. induction rest as [| e rest IH]; [reflexivity |].
    rewrite filter_cons. destruct (decide (f e = f x)) as [He | He].
    + destruct Hfresh. rewrite <- He. simpl. left.
    + apply IH. intros H. apply Hfresh. simpl. now right.
  - destruct (decide (f e = f x)) as [He | He].
    + destruct Hfresh. rewrite He. apply list_elem_of_In, in_map.
      assumption.
    + now apply IH.
Qed.

(** Within range, the int64 computation of 90% is the floor. *)
Lemma ninety_percent_exact (m : Z) :
  0 <= m -> m * 90 <= Go.int64_max ->
  Go.int64_div (Go.int64_mul m 90) 100 = m * 90 / 100.
Proof.
  intros Hpos Hfit. unfold Go.int64_div, Go.int64_mul.
  rewrite (int64_wrap_id (m * 90)) by (unfold Go.int64_min, Go.int64_max in *; lia).
  rewrite Z.quot_div_nonneg by lia.
  apply int64_wrap_id.
  assert (0 <= m * 90 / 100 <= m * 90).
  { split; [apply Z.div_pos; lia |].
    apply Z.div_le_upper_bound; lia. }
  unfold Go.int64_min, Go.int64_max in *. lia.
Qed.

Context {CD : Codec}.

(** [C2], as amended.  For the container at index i of a Deployment and a
    declared resource request named r with milli-value m, when
    0 <= m and m * 90 fits a signed 64-bit integer, and no other request of
    that container has the same lower-cased name, the patch of [mutate]
    contains exactly one operation at path
    /spec/template/spec/containers/i/resources/requests/lowercase(r); it is
    a replace whose value is floor(m * 90 / 100) milli-units printed in the
    format of the original quantity. *)
Theorem reduction_patch_entry
    (req : AdmissionRequest Raw) (deployment : appsv1.Deployment)
    (i : nat) (container : corev1.Container)
    (resourceName : corev1.ResourceName) (quantity : Quantity) :
  Kind req = "Deployment" ->
  unmarshal_Deployment (Object req) = inr deployment ->
  corev1.Containers (appsv1.Spec_Template_Spec deployment) !! i
  = Some container ->
  In (resourceName, quantity) (corev1.Requests (corev1.Resources container)) ->
  NoDup (map (fun e => strings_ToLower (fst e))
             (corev1.Requests (corev1.Resources container))) ->
  0 <= MilliValue quantity ->
  MilliValue quantity * 90 <= Go.int64_max ->
  exists patch,
    V1.mutate req = patchResponse patch
    /\ filter (fun op =>
                 V1.Path op
                 = "/spec/template/spec/containers/" +:+ Go.itoa i
                   +:+ "/resources/requests/" +:+ strings_ToLower resourceName)
              patch
       = [ {| V1.Op := "replace";
              V1.Path :=
                "/spec/template/spec/containers/" +:+ Go.itoa i
                +:+ "/resources/requests/" +:+ strings_ToLower resourceName;
              V1.Value :=
                V1.VString
                  (Quantity_String
                     (NewMilliQuantity (MilliValue quantity * 90 / 100)
                        (Quantity_Format quantity))) |} ].
Proof.
  intros Hk Hd Hc Hin Hnd Hpos Hfit.
  eexists. split.
  - apply (mutate_patch req (appsv1.ObjectMeta deployment)).
    now apply V1.object_of_deployment.
  - change ("/spec/template/spec/containers/" +:+ Go.itoa i
            +:+ "/resources/requests/" +:+ strings_ToLower resourceName)
      with (V1.requestPath i resourceName).
    rewrite filter_cons, decide_False by discriminate.
    unfold V1.applyResourceReduction.
    pose proof (filter_from_at 0 i resourceName _ _ Hc) as Hf.
    change (0 + i)%nat with i in Hf. rewrite Hf.
    rewrite (filter_unique_image (fun e => strings_ToLower (fst e)) _
               (resourceName, quantity) Hnd Hin).
    simpl. unfold V1.reduceRequest. now rewrite ninety_percent_exact.
Qed.

End Reduction.

(** ** Annotation merge *)

Section AnnotationMerge.

(** Against an empty target every key is missing. *)
Lemma updateAnnotation_empty (added : list (string * string)) :
  V1.updateAnnotation (Some ∅) added = map V1.addAnnotation added.
Proof.
  induction added as [| [key value] rest IH]; [reflexivity |].
  simpl. rewrite lookup_empty. simpl. now rewrite IH.
Qed.

(** Against a nil target every key is missing, too. *)
Lemma updateAnnotation_nil (added : list (string * string)) :
  V1.updateAnnotation None added = map V1.addAnnotation added.
Proof.
  destruct added as [| [key value] rest]; [reflexivity |].
  simpl. now rewrite updateAnnotation_empty.
Qed.

(** The keys visited before the first missing one are replaced; from the
    first missing key on, the target is empty and every key is added. *)
Lemma updateAnnotation_split (target : option (gmap string string))
    (present rest : list (string * string)) (entry : string * string) :
  Forall (fun e => Go.index target (fst e) <> "") present ->
  Go.index target (fst entry) = "" ->
  V1.updateAnnotation target (present ++ entry :: rest)
  = map V1.replaceAnnotation present ++ map V1.addAnnotation (entry :: rest).
Proof.
  intros Hpresent Hmissing.
  induction Hpresent as [| [key value] present Hkey _ IH]; simpl.
  - destruct entry as [key value]. simpl in Hmissing. rewrite Hmissing.
    rewrite orb_true_r. now rewrite updateAnnotation_empty.
  - simpl in Hkey. destruct target as [m |]; [| now destruct Hkey].
    apply String.eqb_neq in Hkey. rewrite Hkey. simpl. now rewrite IH.
Qed.

(** Every key missing from the target gets its own add operation, carrying
    that key alone. *)
Lemma updateAnnotation_missing (target : option (gmap string string))
    (added : list (string * string)) (entry : string * string) :
  In entry added -> Go.index target (fst entry) = "" ->
  In (V1.addAnnotation entry) (V1.updateAnnotation target added).
Proof.
  revert target. induction added as [| [key value] rest IH];
    intros target Hin Hmissing; [destruct Hin |].
  simpl. destruct Hin as [<- | Hin].
  - simpl in Hmissing. rewrite Hmissing, orb_true_r. now left.
  - destruct (_ || _); right.
    + apply IH; [assumption | apply index_empty].
    + now apply IH.
Qed.

(** With every key present in the target with a non-empty value, every
    key is replaced. *)
Lemma updateAnnotation_all_present (target : option (gmap string string))
    (added : list (string * string)) :
  Forall (fun e => Go.index target (fst e) <> "") added ->
  V1.updateAnnotation target added = map V1.replaceAnnotation added.
Proof.
  induction 1 as [| [key value] rest Hkey _ IH]; [reflexivity |].
  simpl in Hkey |- *. destruct target as [m |]; [| now destruct Hkey].
  apply String.eqb_neq in Hkey. simpl in Hkey |- *. rewrite Hkey. simpl.
  now rewrite IH.
Qed.


End AnnotationMerge.

(** ** The patch of the direct-construction [mutate] *)

Section MutatePatch.
Context {QL : QuantityLib} {SL : StringsLib} {CD : Codec}.

(** Whenever [mutate] returns a patch, it is the status add followed by the
    reduction of some container list. *)
Lemma mutate_patch_shape (req : AdmissionRequest Raw)
    (patch : list V1.patchOperation) :
  Patch (V1.mutate req) = Some patch ->
  exists containers,
    patch = V1.addStatus :: V1.applyResourceReduction containers.
Proof.
  unfold V1.mutate, V1.mutate_decode.
  destruct (String.eqb (Kind req) "Deployment").
  - destruct (unmarshal_Deployment (Object req)); simpl; intros [= <-]; eauto.
  - destruct (String.eqb (Kind req) "Service").
    + destruct (unmarshal_Service (Object req)); simpl; intros [= <-]; eauto.
    + simpl. discriminate.
Qed.

Lemma reduction_ops_paths (k : nat) (containers : list corev1.Container)
    (op : V1.patchOperation) :
  In op (V1.applyResourceReduction_from k containers) ->
  exists i r, V1.Path op = V1.requestPath i r.
Proof.
  revert k. induction containers as [| c rest IH]; intros k Hin;
    [destruct Hin |].
  simpl in Hin. apply in_app_iff in Hin as [Hin | Hin]; [| now apply (IH (S k))].
  apply in_map_iff in Hin as ([r q] & <- & _). now exists k, r.
Qed.

(** A request path lies under /spec/, away from the annotations. *)
Lemma requestPath_under_spec (i : nat) (r : corev1.ResourceName) :
  String.prefix "/spec/" (V1.requestPath i r) = true
  /\ String.prefix "/metadata/annotations/" (V1.requestPath i r) = false
  /\ String.eqb (V1.requestPath i r) "/metadata/annotations" = false.
Proof. repeat split; reflexivity. Qed.

Lemma reduction_keeps_annotations (patch : list V1.patchOperation)
    (annotations : option (gmap string string)) :
  (forall op, In op patch -> exists i r, V1.Path op = V1.requestPath i r) ->
  V1.applyPatchToAnnotations patch annotations = Some annotations.
Proof.
  induction patch as [| op rest IH]; intros Hall; [reflexivity |].
  simpl. unfold V1.applyToAnnotations.
  destruct (Hall op (or_introl eq_refl)) as (i & r & ->).
  destruct (requestPath_under_spec i r) as (-> & _ & ->).
  apply IH. intros op' Hin. apply Hall. now right.
Qed.

(** [C10].  Whenever the direct-construction [mutate] returns a patch, the
    patch contains the add operation at /metadata/annotations whose value is
    the one-entry map from the status key to "mutated"; every other
    operation lies under /spec/, so none is a replace at
    /metadata/annotations/<key>.  That add puts the one-entry map in place
    of any pre-existing annotation map, or of none, and whenever the patch
    as a whole applies, the object's annotations are exactly that map.  A
    request of a supported kind whose object decodes does get a patch, and
    the response is the same for any two such requests with the same
    container list: the object's annotations are not read. *)
Theorem mutate_status_annotation (req : AdmissionRequest Raw)
    (patch : list V1.patchOperation) :
  Patch (V1.mutate req) = Some patch ->
  In {| V1.Op := "add"; V1.Path := "/metadata/annotations";
        V1.Value :=
          V1.VMap {[ V1.admissionWebhookAnnotationStatusKey := "mutated" ]} |}
     patch
  /\ (forall op, In op patch -> V1.Op op = "replace" ->
        String.prefix "/metadata/annotations/" (V1.Path op) = false)
  /\ (forall annotations,
        V1.applyToAnnotations
          {| V1.Op := "add"; V1.Path := "/metadata/annotations";
             V1.Value :=
               V1.VMap
                 {[ V1.admissionWebhookAnnotationStatusKey := "mutated" ]} |}
          annotations
        = Some (Some {[ V1.admissionWebhookAnnotationStatusKey := "mutated" ]}))
  /\ (forall annotations annotations',
        V1.applyPatchToAnnotations patch annotations = Some annotations' ->
        annotations'
        = Some {[ V1.admissionWebhookAnnotationStatusKey := "mutated" ]})
  /\ (forall req' meta meta' containers,
        V1.object_of req meta containers ->
        V1.object_of req' meta' containers ->
        V1.mutate req' = V1.mutate req
        /\ exists patch', Patch (V1.mutate req') = Some patch').
Proof.
  intros Hpatch.
  destruct (mutate_patch_shape _ _ Hpatch) as [containers ->].
  split; [now left |]. split; [| split; [| split]].
  - intros op [<- | Hin] Hop; [discriminate Hop |].
    apply reduction_ops_paths in Hin as (i & r & ->).
    apply requestPath_under_spec.
  - intros annotations. reflexivity.
  - intros annotations annotations'. simpl.
    rewrite reduction_keeps_annotations
      by (intros op Hin; now apply reduction_ops_paths in Hin).
    now intros [= <-].
  - intros req' meta meta' cs Hobj Hobj'.
    rewrite (mutate_patch _ _ _ Hobj), (mutate_patch _ _ _ Hobj').
    split; [reflexivity | eexists; reflexivity].
Qed.

(** [C8], as amended.  For an object of a supported kind, applying the
    patch computed by [mutate] leaves the status annotation as the only
    annotation, and recomputing the patch against the patched object yields
    the add operation at /metadata/annotations for the status key once
    more, at the head of the patch: [mutate] does not read the object's
    annotations and its already-mutated check is switched off. *)
Theorem mutate_patch_recomputed
    (req req' : AdmissionRequest Raw) (meta meta' : metav1.ObjectMeta)
    (containers containers' : list corev1.Container)
    (patch : list V1.patchOperation) :
  V1.object_of req meta containers ->
  V1.mutate req = patchResponse patch ->
  V1.object_of req' meta' containers' ->
  V1.applyPatchToAnnotations patch (metav1.Annotations meta)
  = Some (metav1.Annotations meta') ->
  metav1.Annotations meta'
  = Some {[ V1.admissionWebhookAnnotationStatusKey := "mutated" ]}
  /\ exists patch',
       V1.mutate req' = patchResponse patch'
       /\ hd_error patch'
          = Some {| V1.Op := "add"; V1.Path := "/metadata/annotations";
                    V1.Value :=
                      V1.VMap
                        {[ V1.admissionWebhookAnnotationStatusKey
                           := "mutated" ]} |}
       /\ hd_error patch' = hd_error patch.
Proof.
  intros Hobj Hm Hobj' Happly.
  rewrite (mutate_patch _ _ _ Hobj) in Hm. injection Hm as <-.
  split.
  - simpl in Happly.
    rewrite reduction_keeps_annotations in Happly
      by (intros op Hin; now apply reduction_ops_paths in Hin).
    now injection Happly as <-.
  - eexists. split; [apply (mutate_patch _ _ _ Hobj') |].
    split; reflexivity.
Qed.

End MutatePatch.

(** * Further properties of the code *)

(** ** Policy gate, for any list of ignored namespaces *)

Section PolicyDecision.

(** [X1].
    [admissionRequired] answers "not required" exactly when the namespace is
    in the ignored list or the lower-cased annotation under the given key is
    one of n, no, false, off.  An absent or empty annotation, like any other
    value, leaves the admission required. *)
Theorem admissionRequired_decision (ignoredList : list string) (key : string)
    (meta : metav1.ObjectMeta) :
  V1.admissionRequired ignoredList key meta = false
  <-> In (metav1.Namespace meta) ignoredList
      \/ In (Go.ToLower (Go.index (metav1.Annotations meta) key))
            ["n"; "no"; "false"; "off"].
Proof.
  unfold V1.admissionRequired, metav1.GetAnnotations.
  rewrite index_nil_as_empty.
  destruct (existsb (String.eqb (metav1.Namespace meta)) ignoredList) eqn:Hns.
  - apply existsb_eqb_In in Hns. tauto.
  - apply existsb_eqb_not_In in Hns.
    destruct (Go.one_of _ _) eqn:Hone; split.
    + intros _. right. now apply one_of_In.
    + reflexivity.
    + discriminate.
    + apply one_of_not_In in Hone. intros [H | H]; contradiction.
Qed.

(** [X2].
    The two mutation policies side by side, for one list of ignored
    namespaces: where the diff-based policy requires mutation, so does the
    direct-construction one unless the status annotation says "mutated";
    where the direct-construction policy requires it, so does the diff-based
    one unless the mutate annotation is absent or empty. *)
Theorem mutation_policies_compared (ignoredList : list string)
    (meta : metav1.ObjectMeta) :
  (V2.mutationRequired ignoredList meta = true ->
   Go.ToLower (Go.index (metav1.Annotations meta)
                 V1.admissionWebhookAnnotationStatusKey) <> "mutated" ->
   V1.mutationRequired ignoredList meta = true)
  /\ (V1.mutationRequired ignoredList meta = true ->
      Go.index (metav1.Annotations meta)
        V1.admissionWebhookAnnotationMutateKey <> "" ->
      V2.mutationRequired ignoredList meta = true).
Proof.
  unfold V1.mutationRequired, V1.admissionRequired, V2.mutationRequired,
    metav1.GetAnnotations.
  rewrite !index_nil_as_empty.
  change V2.admissionWebhookAnnotationMutateKey
    with V1.admissionWebhookAnnotationMutateKey.
  set (value := Go.ToLower (Go.index (metav1.Annotations meta)
                              V1.admissionWebhookAnnotationMutateKey)).
  destruct (existsb (String.eqb (metav1.Namespace meta)) ignoredList).
  { split; intros H; [discriminate H |].
    now destruct (String.eqb _ "mutated"). }
  split.
  - intros Hv2 Hst. apply String.eqb_neq in Hst. rewrite Hst.
    destruct (Go.one_of value ["n"; "no"; "false"; "off"; ""]) eqn:H5;
      [discriminate Hv2 |].
    apply one_of_not_In in H5.
    destruct (Go.one_of value ["n"; "no"; "false"; "off"]) eqn:H4;
      [| reflexivity].
    apply one_of_In in H4. destruct H5. simpl in *. tauto.
  - intros Hv1 Hne.
    destruct (String.eqb _ "mutated"); [discriminate Hv1 |].
    destruct (Go.one_of value ["n"; "no"; "false"; "off"]) eqn:H4;
      [discriminate Hv1 |].
    apply one_of_not_In in H4.
    destruct (Go.one_of value ["n"; "no"; "false"; "off"; ""]) eqn:H5;
      [| reflexivity].
    apply one_of_In in H5. destruct H4. simpl in *.
    destruct H5 as [H | [H | [H | [H | [H | []]]]]]; auto.
    destruct Hne. apply ToLower_empty. now symmetry.
Qed.

End PolicyDecision.

(** ** Annotation and label merge *)

Section Merge.

(** [X3].
    The patch of [updateAnnotation] is a run of replaces followed by a run
    of adds: the entries visited before the first key that is missing from
    the target (or all of them, if none is missing) are replaced one by
    one, and that key and every entry after it are added one by one. *)
Theorem updateAnnotation_shape (target : option (gmap string string))
    (added : list (string * string)) :
  exists n,
    (n <= length added)%nat
    /\ V1.updateAnnotation target added
       = map V1.replaceAnnotation (firstn n added)
         ++ map V1.addAnnotation (skipn n added)
    /\ Forall (fun e => Go.index target (fst e) <> "") (firstn n added)
    /\ match skipn n added with
       | [] => True
       | e :: _ => Go.index target (fst e) = ""
       end.
Proof.
  induction added as [| [key value] rest IH].
  - exists 0%nat. simpl. repeat split; constructor.
  - destruct (String.eqb_spec (Go.index target key) "") as [Hmiss | Hpres].
    + exists 0%nat. simpl. rewrite Hmiss, orb_true_r.
      rewrite updateAnnotation_empty.
      repeat split; try constructor; try lia; assumption.
    + destruct IH as (n & Hn & Heq & Hall & Hnext).
      exists (S n).
      destruct target as [m |]; [| now destruct Hpres].
      apply String.eqb_neq in Hpres as Hpres'.
      simpl in Hpres' |- *. rewrite Hpres'. simpl in Heq |- *. rewrite Heq.
      repeat split; try lia; try assumption.
      constructor; assumption.
Qed.

(** [X4].
    [updateAnnotation] emits one operation per entry of [added], in the
    order of the entries: the i-th operation is the add or the replace for
    the i-th entry. *)
Theorem updateAnnotation_pointwise (target : option (gmap string string))
    (added : list (string * string)) :
  length (V1.updateAnnotation target added) = length added
  /\ forall (i : nat) (e : string * string),
       added !! i = Some e ->
       V1.updateAnnotation target added !! i = Some (V1.addAnnotation e)
       \/ V1.updateAnnotation target added !! i
          = Some (V1.replaceAnnotation e).
Proof.
  revert target. induction added as [| [key value] rest IH]; intros target.
  - split; [reflexivity | intros i e H; discriminate H].
  - simpl. destruct (_ || _).
    + destruct (IH (Some ∅)) as [Hlen Hat]. split; [simpl; now rewrite Hlen |].
      intros [| i] e H; simpl in *.
      * injection H as <-. now left.
      * now apply Hat.
    + destruct (IH target) as [Hlen Hat]. split; [simpl; now rewrite Hlen |].
      intros [| i] e H; simpl in *.
      * injection H as <-. now right.
      * now apply Hat.
Qed.

Lemma updateLabels_values_lookup (target : option (gmap string string))
    (added : list (string * string)) (values : gmap string string)
    (key value : string) :
  NoDup (map fst added) ->
  (forall v, values !! key = Some v -> ~ In key (map fst added)) ->
  V1.updateLabels_values target added values !! key = Some value
  <-> values !! key = Some value
      \/ (In (key, value) added /\ Go.index target key = "").
Proof.
  revert values. induction added as [| [k v] rest IH]; intros values Hnd Hfresh.
  - simpl. tauto.
  - simpl in Hnd. apply NoDup_cons in Hnd as [Hk Hnd].
    rewrite list_elem_of_In in Hk. simpl.
    assert (Hstep : forall values',
              (values' !! key = Some value
               <-> values !! key = Some value
                   \/ (k = key /\ v = value /\ Go.index target key = "")) ->
              (forall v', values' !! key = Some v' -> ~ In key (map fst rest)) ->
              V1.updateLabels_values target rest values' !! key = Some value
              <-> values !! key = Some value
                  \/ (((k, v) = (key, value) \/ In (key, value) rest)
                      /\ Go.index target key = "")).
    { intros values' Hv Hf. rewrite (IH values' Hnd Hf), Hv.
      split.
      - intros [[H | (-> & -> & H)] | [H1 H2]]; auto.
      - intros [H | [[[= -> ->] | H1] H2]]; auto. }
    destruct (match target with None => true | Some _ => false end
              || String.eqb (Go.index target k) "") eqn:Hmiss.
    + assert (Hk0 : Go.index target k = "").
      { destruct target as [m |]; [| reflexivity].
        simpl in Hmiss. now apply String.eqb_eq in Hmiss. }
      apply Hstep.
      * destruct (decide (k = key)) as [-> | Hne].
        -- rewrite lookup_insert_eq. split.
           ++ intros [= ->]. right. auto.
           ++ intros [H | (_ & -> & _)]; [| reflexivity].
              destruct (Hfresh _ H). simpl. now left.
        -- rewrite lookup_insert_ne by assumption. split; [auto |].
           intros [H | (H & _)]; [assumption | contradiction].
      * intros v'. destruct (decide (k = key)) as [-> | Hne].
        -- intros _. assumption.
        -- rewrite lookup_insert_ne by assumption. intros H Hin.
           apply (Hfresh _ H). simpl. now right.
    + apply Hstep.
      * split; [auto |]. intros [H | (-> & -> & H)]; [assumption |].
        destruct target as [m |]; [| discriminate Hmiss].
        simpl in Hmiss. apply String.eqb_neq in Hmiss. contradiction.
      * intros v' H Hin. apply (Hfresh _ H). simpl. now right.
Qed.

(** [X5].
    [updateLabels] always emits exactly one operation, an add at
    /metadata/labels, whose value maps a key to a value exactly when the
    pair is among the labels to add and the target has no non-empty value
    for the key: labels the target already carries are left out of the
    value. *)
Theorem updateLabels_value (target : option (gmap string string))
    (added : list (string * string)) :
  NoDup (map fst added) ->
  exists values,
    V1.updateLabels target added
    = [ {| V1.Op := "add"; V1.Path := "/metadata/labels";
           V1.Value := V1.VMap values |} ]
    /\ forall key value,
         values !! key = Some value
         <-> In (key, value) added /\ Go.index target key = "".
Proof.
  intros Hnd. eexists. split; [reflexivity |].
  intros key value.
  rewrite (updateLabels_values_lookup target added ∅ key value Hnd).
  - rewrite lookup_empty. split; [intros [H | H]; [discriminate H | exact H] | auto].
  - intros v H. rewrite lookup_empty in H. discriminate H.
Qed.

End Merge.

(** ** Resource reduction, operation by operation *)

Section ReductionOps.
Context {QL : QuantityLib} {SL : StringsLib}.

Lemma reduction_from_In (k : nat) (containers : list corev1.Container)
    (op : V1.patchOperation) :
  In op (V1.applyResourceReduction_from k containers)
  <-> exists n c e,
        containers !! n = Some c
        /\ In e (corev1.Requests (corev1.Resources c))
        /\ op = V1.reduceRequest (k + n) e.
Proof.
  revert k. induction containers as [| c rest IH]; intros k; simpl.
  - split; [intros [] | intros (n & c & e & H & _); discriminate H].
  - rewrite in_app_iff, in_map_iff, (IH (S k)). split.
    + intros [(e & <- & Hin) | (n & c' & e & Hc & Hin & ->)].
      * exists 0%nat, c, e. rewrite Nat.add_0_r. auto.
      * exists (S n), c', e. replace (k + S n)%nat with (S k + n)%nat by lia.
        auto.
    + intros ([| n] & c' & e & Hc & Hin & ->); simpl in Hc.
      * injection Hc as <-. left. exists e. rewrite Nat.add_0_r. auto.
      * right. exists n, c', e.
        replace (S k + n)%nat with (k + S n)%nat by lia. auto.
Qed.

(** [X6].
    The operations of [applyResourceReduction] are exactly the replaces
    built from the declared requests: an operation is in the patch if and
    only if it is the replace for some container at an index within the
    list and some request that container declares, at that index's path and
    with the value the int64 computation gives.  Nothing is emitted for a
    container without requests, and nothing but replaces. *)
Theorem reduction_ops_exact (containers : list corev1.Container)
    (op : V1.patchOperation) :
  In op (V1.applyResourceReduction containers)
  <-> exists i c r q,
        containers !! i = Some c
        /\ In (r, q) (corev1.Requests (corev1.Resources c))
        /\ op = {| V1.Op := "replace";
                   V1.Path :=
                     "/spec/template/spec/containers/" +:+ Go.itoa i
                     +:+ "/resources/requests/" +:+ strings_ToLower r;
                   V1.Value :=
                     V1.VString
                       (Quantity_String
                          (NewMilliQuantity
                             (Go.int64_div (Go.int64_mul (MilliValue q) 90) 100)
                             (Quantity_Format q))) |}.
Proof.
  unfold V1.applyResourceReduction. rewrite reduction_from_In. split.
  - intros (n & c & [r q] & Hc & Hin & ->). now exists n, c, r, q.
  - intros (i & c & r & q & Hc & Hin & ->). now exists i, c, (r, q).
Qed.

(** [X7].
    Within range the reduced quantity never exceeds the original: for
    0 <= m with m * 90 in int64, the value put in the patch is between 0 and
    m milli-units, strictly below m when m is positive, and it is 0 exactly
    when m is 0 or 1. *)
Theorem reduced_value_bounds (i : nat) (r : corev1.ResourceName)
    (q : Quantity) :
  0 <= MilliValue q ->
  MilliValue q * 90 <= Go.int64_max ->
  exists v,
    V1.Value (V1.reduceRequest i (r, q))
    = V1.VString (Quantity_String (NewMilliQuantity v (Quantity_Format q)))
    /\ 0 <= v <= MilliValue q
    /\ (0 < MilliValue q -> v < MilliValue q)
    /\ (v = 0 <-> MilliValue q <= 1).
Proof.
  intros Hpos Hfit. exists (MilliValue q * 90 / 100).
  split; [simpl; now rewrite ninety_percent_exact |].
  pose proof (Z.mul_div_le (MilliValue q * 90) 100 ltac:(lia)) as Hlo.
  pose proof (Z.mul_succ_div_gt (MilliValue q * 90) 100 ltac:(lia)) as Hhi.
  set (v := MilliValue q * 90 / 100) in *.
  repeat split; lia.
Qed.

End ReductionOps.

(** ** Responses of [validate] and of the direct-construction [mutate] *)

Section Responses.
Context {QL : QuantityLib} {SL : StringsLib} {CD : Codec} {JD : JsonDiff}.

Lemma validate_decode_object (req : AdmissionRequest Raw)
    (labels : option (gmap string string)) (meta : metav1.ObjectMeta) :
  V1.validate_decode req = inr (labels, meta) ->
  labels = metav1.Labels meta /\ exists containers, V1.object_of req meta containers.
Proof.
  unfold V1.validate_decode.
  destruct (String.eqb_spec (Kind req) "Deployment") as [Hk | _].
  - destruct (unmarshal_Deployment (Object req)) as [err | d] eqn:Hd;
      intros [= <- <-].
    split; [reflexivity |]. eexists. now apply V1.object_of_deployment.
  - destruct (String.eqb_spec (Kind req) "Service") as [Hk | _];
      [| discriminate].
    destruct (unmarshal_Service (Object req)) as [err | s] eqn:Hs;
      intros [= <- <-].
    split; [reflexivity |]. eexists. now apply V1.object_of_service.
Qed.

Lemma validate_decode_message (req : AdmissionRequest Raw)
    (response : AdmissionResponse (list V1.patchOperation)) :
  V1.validate_decode req = inl response ->
  exists msg, response = messageResponse msg.
Proof.
  unfold V1.validate_decode.
  destruct (String.eqb (Kind req) "Deployment").
  - destruct (unmarshal_Deployment (Object req)); intros [= <-]; eauto.
  - destruct (String.eqb (Kind req) "Service").
    + destruct (unmarshal_Service (Object req)); intros [= <-]; eauto.
    + intros [= <-]; eauto.
Qed.

(** [X8].
    Whatever the request, [validate] never returns a patch or a patch type,
    and its response carries a result exactly when it does not allow:
    allowed=true comes with no result, allowed=false with a message or a
    reason. *)
Theorem validate_response_invariant (req : AdmissionRequest Raw) :
  Patch (V1.validate req) = None
  /\ Resp_PatchType (V1.validate req) = None
  /\ (Allowed (V1.validate req) = true <-> Result (V1.validate req) = None).
Proof.
  unfold V1.validate.
  destruct (V1.validate_decode req) as [response | [labels meta]] eqn:Hdec.
  - apply validate_decode_message in Hdec as [msg ->]. simpl.
    repeat split; discriminate.
  - destruct (negb _); [simpl; tauto |].
    destruct (checkLabels_cases labels V1.requiredLabels)
      as [[_ ->] | [_ ->]]; simpl; repeat split; try tauto; discriminate.
Qed.

(** [X9].
    An object of a supported kind that opts out of validation, with a
    validate annotation that lower-cases to n, no, false or off, is allowed
    with no result and no patch, in any namespace and whatever its labels. *)
Theorem validate_opt_out (req : AdmissionRequest Raw)
    (meta : metav1.ObjectMeta) (containers : list corev1.Container) :
  V1.object_of req meta containers ->
  In (Go.ToLower (Go.index (metav1.Annotations meta)
                    V1.admissionWebhookAnnotationValidateKey))
     ["n"; "no"; "false"; "off"] ->
  V1.validate req
  = {| Allowed := true; Result := None; Patch := None;
       Resp_PatchType := None |}.
Proof.
  intros Hobj Hout. unfold V1.validate.
  rewrite (object_of_validate_decode _ _ _ Hobj).
  assert (Hreq : V1.validationRequired V1.ignoredNamespaces meta = false).
  { unfold V1.validationRequired, V1.admissionRequired, metav1.GetAnnotations.
    rewrite index_nil_as_empty. apply one_of_In in Hout. rewrite Hout.
    now destruct (existsb _ _). }
  now rewrite Hreq.
Qed.

(** [X10].
    A request of a supported kind whose raw object does not decode is
    answered with allowed unset, no patch and the decoder's message as the
    result message, by [validate] and by both [mutate]s; the store is left
    as it was.  A QoS delete request is decoded from the old object. *)
Theorem decode_failure_rejected (req : AdmissionRequest Raw) (err : string)
    (QoSInst : QoSStore.QoSpec) :
  (Kind req = "Deployment" ->
   unmarshal_Deployment (Object req) = inl err ->
   V1.validate req = messageResponse err
   /\ V1.mutate req = messageResponse err
   /\ V2.mutate req QoSInst = (messageResponse err, QoSInst))
  /\ (Kind req = "Service" ->
      unmarshal_Service (Object req) = inl err ->
      V1.validate req = messageResponse err
      /\ V1.mutate req = messageResponse err)
  /\ (Kind req = "QoS" ->
      unmarshal_QoS (if String.eqb (Operation req) "DELETE"
                     then OldObject req else Object req) = inl err ->
      V2.mutate req QoSInst = (messageResponse err, QoSInst)).
Proof.
  split; [| split]; intros Hk Hd.
  - unfold V1.validate, V1.validate_decode, V1.mutate, V1.mutate_decode,
      V2.mutate.
    now rewrite Hk, Hd.
  - unfold V1.validate, V1.validate_decode, V1.mutate, V1.mutate_decode.
    now rewrite Hk, Hd.
  - unfold V2.mutate. rewrite Hk. simpl. now rewrite Hd.
Qed.

(** [X11].
    [validate] allows a request exactly when it is of a supported kind, its
    object decodes, and either validation is not required for the object
    or every required label key is present. *)
Theorem validate_allows_iff (req : AdmissionRequest Raw) :
  Allowed (V1.validate req) = true
  <-> exists meta containers,
        V1.object_of req meta containers
        /\ (V1.validationRequired V1.ignoredNamespaces meta = false
            \/ forall rl, In rl V1.requiredLabels ->
                          is_Some (metav1.Labels meta ≫= (.!! rl))).
Proof.
  split.
  - unfold V1.validate.
    destruct (V1.validate_decode req) as [response | [labels meta]] eqn:Hdec.
    + apply validate_decode_message in Hdec as [msg ->]. discriminate.
    + apply validate_decode_object in Hdec as [-> [containers Hobj]].
      destruct (V1.validationRequired V1.ignoredNamespaces meta) eqn:Hreq.
      * destruct (checkLabels_cases (metav1.Labels meta) V1.requiredLabels)
          as [[Hall ->] | [_ ->]]; simpl; [| discriminate].
        intros _. exists meta, containers. auto.
      * intros _. exists meta, containers. auto.
  - intros (meta & containers & Hobj & Hok). unfold V1.validate.
    rewrite (object_of_validate_decode _ _ _ Hobj).
    destruct (V1.validationRequired V1.ignoredNamespaces meta) eqn:Hreq;
      [| reflexivity].
    destruct Hok as [Hok | Hall]; [discriminate Hok |].
    destruct (checkLabels_cases (metav1.Labels meta) V1.requiredLabels)
      as [[_ ->] | [Hmiss _]]; [reflexivity | contradiction].
Qed.

Lemma mutate_decode_object (req : AdmissionRequest Raw)
    (containers : list corev1.Container) :
  V1.mutate_decode req = inr containers ->
  exists meta, V1.object_of req meta containers.
Proof.
  unfold V1.mutate_decode.
  destruct (String.eqb_spec (Kind req) "Deployment") as [Hk | _].
  - destruct (unmarshal_Deployment (Object req)) as [err | d] eqn:Hd;
      intros [= <-].
    eexists. now apply V1.object_of_deployment.
  - destruct (String.eqb_spec (Kind req) "Service") as [Hk | _];
      [| discriminate].
    destruct (unmarshal_Service (Object req)) as [err | s] eqn:Hs;
      intros [= <-].
    exists (corev1.Service_ObjectMeta s). now apply V1.object_of_service.
Qed.

Lemma mutate_decode_message (req : AdmissionRequest Raw)
    (response : AdmissionResponse (list V1.patchOperation)) :
  V1.mutate_decode req = inl response ->
  exists msg, response = messageResponse msg.
Proof.
  unfold V1.mutate_decode.
  destruct (String.eqb (Kind req) "Deployment").
  - destruct (unmarshal_Deployment (Object req)); intros [= <-]; eauto.
  - destruct (String.eqb (Kind req) "Service").
    + destruct (unmarshal_Service (Object req)); intros [= <-]; eauto.
    + intros [= <-]; eauto.
Qed.

(** [X12].
    The direct-construction [mutate] allows a request exactly when it is of
    a supported kind and its object decodes; it then returns a patch and no
    result, and otherwise a result message and no patch.  No label,
    annotation or namespace makes it refuse or skip. *)
Theorem mutate_response_invariant (req : AdmissionRequest Raw) :
  (Allowed (V1.mutate req) = true
   <-> exists meta containers, V1.object_of req meta containers)
  /\ (Allowed (V1.mutate req) = true
      <-> exists patch, Patch (V1.mutate req) = Some patch)
  /\ (Allowed (V1.mutate req) = true <-> Result (V1.mutate req) = None).
Proof.
  unfold V1.mutate.
  destruct (V1.mutate_decode req) as [response | containers] eqn:Hdec.
  - pose proof Hdec as Hmsg.
    apply mutate_decode_message in Hmsg as [msg ->]. simpl.
    repeat split; try discriminate.
    + intros (meta & containers & Hobj).
      rewrite (object_of_mutate_decode _ _ _ Hobj) in Hdec. discriminate Hdec.
    + intros [patch H]. discriminate H.
  - apply mutate_decode_object in Hdec as [meta Hobj]. simpl.
    repeat split; eauto.
Qed.

(** [X13].
    For an object of a supported kind the patch of [mutate] holds one
    operation for the status annotation and one per declared resource
    request of the containers; for a Service it is the status add alone. *)
Theorem mutate_patch_length (req : AdmissionRequest Raw)
    (meta : metav1.ObjectMeta) (containers : list corev1.Container) :
  V1.object_of req meta containers ->
  exists patch,
    V1.mutate req = patchResponse patch
    /\ length patch
       = S (list_sum
              (map (fun c => length (corev1.Requests (corev1.Resources c)))
                   containers))
    /\ (Kind req = "Service" -> patch = [V1.addStatus]).
Proof.
  intros Hobj. eexists. split; [apply (mutate_patch _ _ _ Hobj) |]. split.
  - simpl. f_equal. unfold V1.applyResourceReduction. clear Hobj.
    generalize 0%nat. induction containers as [| c rest IH]; intros k;
      [reflexivity |].
    simpl. now rewrite length_app, length_map, IH.
  - intros Hk. destruct Hobj as [d Hk' _ | s _ _]; [| reflexivity].
    rewrite Hk in Hk'. discriminate Hk'.
Qed.

End Responses.

(** ** The store and the diff-based [mutate] *)

Section StoreAndDeploy.
Context {QL : QuantityLib} {CD : Codec} {JD : JsonDiff}.
Import QoSStore.

(** [X14].
    [get] never hands out the zero spec: whatever the store holds, the
    result differs from [QoSpec{}]; it returns the stored value exactly
    when that value is not zero, and applying it twice changes nothing. *)
Theorem getQoSpec_never_zero (QoSInst : QoSpec) :
  getQoSpec QoSInst <> zero
  /\ (getQoSpec QoSInst = QoSInst <-> QoSInst <> zero)
  /\ getQoSpec (getQoSpec QoSInst) = getQoSpec QoSInst.
Proof.
  unfold getQoSpec.
  destruct (QoSpec_eqb QoSInst zero) eqn:Hz.
  - apply QoSpec_eqb_eq in Hz. subst QoSInst. simpl.
    repeat split; try discriminate. intros H. now destruct H.
  - rewrite Hz. apply QoSpec_eqb_neq in Hz. repeat split; auto.
Qed.

(** [X15].
    Only a QoS request whose object decodes can change the store: if one
    call of [mutate] leaves the store different, the request is of kind
    QoS, its object (the old object for a delete) decodes, and the new store
    is the zero spec for a delete and the request's non-zero spec
    otherwise.  Deployment requests, unsupported kinds and decode failures
    never touch it. *)
Theorem store_changes_only_by_qos (req : AdmissionRequest Raw)
    (QoSInst : QoSpec) :
  snd (V2.mutate req QoSInst) <> QoSInst ->
  Kind req = "QoS"
  /\ exists qos,
       unmarshal_QoS (if String.eqb (Operation req) "DELETE"
                      then OldObject req else Object req) = inr qos
       /\ ((Operation req = "DELETE" /\ snd (V2.mutate req QoSInst) = zero)
           \/ (Operation req <> "DELETE" /\ Spec qos <> zero
               /\ snd (V2.mutate req QoSInst) = Spec qos)).
Proof.
  unfold V2.mutate.
  destruct (String.eqb (Kind req) "Deployment").
  { destruct (unmarshal_Deployment (Object req)); simpl; intros H;
      now destruct H. }
  destruct (String.eqb_spec (Kind req) "QoS") as [Hk | _];
    [| simpl; intros H; now destruct H].
  destruct (unmarshal_QoS _) as [err | qos] eqn:Hq;
    [simpl; intros H; now destruct H |].
  unfold V2.mutateQoS, setQoSpec.
  destruct (String.eqb_spec (Operation req) "DELETE") as [Hop | Hop]; simpl.
  - intros _. split; [assumption |]. exists qos. auto.
  - destruct (QoSpec_eqb (Spec qos) zero) eqn:Hz; simpl;
      [intros H; now destruct H |].
    apply QoSpec_eqb_neq in Hz.
    intros _. split; [assumption |]. exists qos. auto.
Qed.

(** [X16].
    A QoS request is read through one object only: two delete requests
    with the same old object, or two requests of another operation with the
    same object, get the same response and leave the same store, whatever
    their other object, name, namespace or UID. *)
Theorem qos_request_reads_one_object (req req' : AdmissionRequest Raw)
    (QoSInst : QoSpec) :
  Kind req = "QoS" -> Kind req' = "QoS" ->
  Operation req = Operation req' ->
  (if String.eqb (Operation req) "DELETE"
   then OldObject req = OldObject req'
   else Object req = Object req') ->
  V2.mutate req QoSInst = V2.mutate req' QoSInst.
Proof.
  intros Hk Hk' Hop Hobj. unfold V2.mutate.
  rewrite Hk, Hk', <- Hop. simpl.
  destruct (String.eqb (Operation req) "DELETE"); now rewrite Hobj.
Qed.

(** [X17].
    The last configuration request decides, whatever came before it and
    whatever the store held at the start: after a decoded QoS delete [get]
    returns the default, and after a decoded QoS request of another
    operation with a non-zero spec it returns that spec. *)
Theorem last_config_request_wins (reqs : list (AdmissionRequest Raw))
    (req : AdmissionRequest Raw) (qos : QoS) (QoSInst : QoSpec) :
  Kind req = "QoS" ->
  unmarshal_QoS (if String.eqb (Operation req) "DELETE"
                 then OldObject req else Object req) = inr qos ->
  (Operation req = "DELETE" ->
   getQoSpec (V2.run (reqs ++ [req]) QoSInst)
   = {| Cpu := 200; Memory := 400 |})
  /\ (Operation req <> "DELETE" -> Spec qos <> zero ->
      getQoSpec (V2.run (reqs ++ [req]) QoSInst) = Spec qos).
Proof.
  intros Hk Hq. unfold V2.run. rewrite fold_left_app. simpl.
  set (before := fold_left _ reqs QoSInst).
  unfold V2.mutate. rewrite Hk. simpl. rewrite Hq.
  unfold V2.mutateQoS, setQoSpec. split.
  - intros Hop. rewrite Hop. reflexivity.
  - intros Hop Hne. apply String.eqb_neq in Hop. rewrite Hop.
    pose proof Hne as Hne'. apply QoSpec_eqb_neq in Hne'. rewrite Hne'. simpl.
    now apply getQoSpec_set.
Qed.

(** [X18].
    A Deployment that already has an init container is not changed by the
    in-memory mutation, whatever the store holds. *)
Theorem existing_init_containers_kept (QoSInst : QoSpec)
    (deploy : appsv1.Deployment) :
  corev1.InitContainers (appsv1.Spec_Template_Spec deploy) <> [] ->
  V2.newDeploy QoSInst deploy = deploy.
Proof.
  intros Hne. unfold V2.newDeploy.
  destruct deploy as [meta [inits containers]]. simpl in *.
  destruct inits; [now destruct Hne | reflexivity].
Qed.

(** [X19].
    The in-memory mutation keeps the metadata and the containers, leaves at
    least one init container, and is idempotent: mutating the mutated copy
    again, even with another store value, changes nothing. *)
Theorem newDeploy_idempotent (QoSInst QoSInst' : QoSpec)
    (deploy : appsv1.Deployment) :
  appsv1.ObjectMeta (V2.newDeploy QoSInst deploy) = appsv1.ObjectMeta deploy
  /\ corev1.Containers (appsv1.Spec_Template_Spec (V2.newDeploy QoSInst deploy))
     = corev1.Containers (appsv1.Spec_Template_Spec deploy)
  /\ corev1.InitContainers
       (appsv1.Spec_Template_Spec (V2.newDeploy QoSInst deploy)) <> []
  /\ V2.newDeploy QoSInst' (V2.newDeploy QoSInst deploy)
     = V2.newDeploy QoSInst deploy.
Proof.
  unfold V2.newDeploy.
  destruct deploy as [meta [inits containers]]. simpl.
  destruct inits; simpl; repeat split; discriminate.
Qed.

(** [X20].
    When mutation is required and the structural diff or the encoding of
    its patch fails, [mutateDeploy] answers with allowed unset, no patch
    and the failure's message. *)
Theorem diff_failure_rejected (QoSInst : QoSpec) (deploy : appsv1.Deployment)
    (err : string) :
  V2.mutationRequired V2.ignoredNamespaces (appsv1.ObjectMeta deploy) = true ->
  (Compare deploy (V2.newDeploy QoSInst deploy) = inl err
   \/ exists patch,
        Compare deploy (V2.newDeploy QoSInst deploy) = inr patch
        /\ MarshalIndent patch = inl err) ->
  V2.mutateDeploy QoSInst deploy
  = {| Allowed := false;
       Result := Some {| metav1.Message := err; metav1.Reason := "" |};
       Patch := None; Resp_PatchType := None |}.
Proof.
  intros Hreq Hfail. unfold V2.mutateDeploy. rewrite Hreq. simpl.
  destruct Hfail as [-> | (patch & -> & ->)]; reflexivity.
Qed.

(** [X21].
    The diff-based webhook mutates on opt-in only: a Deployment without the
    mutate annotation, or with an empty one, is allowed without a patch and
    without a result, in any namespace, and the store is left alone. *)
Theorem absent_annotation_not_mutated (req : AdmissionRequest Raw)
    (deploy : appsv1.Deployment) (QoSInst : QoSpec) :
  Kind req = "Deployment" ->
  unmarshal_Deployment (Object req) = inr deploy ->
  Go.index (metav1.Annotations (appsv1.ObjectMeta deploy))
    V2.admissionWebhookAnnotationMutateKey = "" ->
  V2.mutate req QoSInst
  = ({| Allowed := true; Result := None; Patch := None;
        Resp_PatchType := None |}, QoSInst).
Proof.
  intros Hk Hd Hempty. unfold V2.mutate. rewrite Hk. simpl. rewrite Hd.
  unfold V2.mutateDeploy, V2.mutationRequired, metav1.GetAnnotations.
  rewrite index_nil_as_empty, Hempty.
  now destruct (existsb _ _).
Qed.

(** [X22].
    Whatever the request and the store, the response of the diff-based
    [mutate] carries a result exactly when it does not allow, and a patch
    only when it allows a Deployment. *)
Theorem V2_mutate_response_invariant (req : AdmissionRequest Raw)
    (QoSInst : QoSpec) :
  (Allowed (fst (V2.mutate req QoSInst)) = true
   <-> Result (fst (V2.mutate req QoSInst)) = None)
  /\ (forall patchBytes,
        Patch (fst (V2.mutate req QoSInst)) = Some patchBytes ->
        Allowed (fst (V2.mutate req QoSInst)) = true
        /\ Kind req = "Deployment").
Proof.
  unfold V2.mutate.
  destruct (String.eqb_spec (Kind req) "Deployment") as [Hk | _].
  - destruct (unmarshal_Deployment (Object req)) as [err | deploy]; simpl.
    + split; [split; discriminate | discriminate].
    + unfold V2.mutateDeploy.
      destruct (negb _); simpl; [split; [tauto | discriminate] |].
      destruct (Compare _ _) as [err | patch]; simpl;
        [split; [split; discriminate | discriminate] |].
      destruct (MarshalIndent patch) as [err | bytes]; simpl;
        [split; [split; discriminate | discriminate] |].
      split; [tauto | auto].
  - destruct (String.eqb (Kind req) "QoS"); simpl.
    + destruct (unmarshal_QoS _) as [err | qos]; simpl.
      * split; [split; discriminate | discriminate].
      * unfold V2.mutateQoS.
        destruct (String.eqb (Operation req) "DELETE"); simpl;
          [split; [tauto | discriminate] |].
        destruct (negb _); simpl; split; try tauto; discriminate.
    + split; [split; discriminate | discriminate].
Qed.

End StoreAndDeploy.

(** ** The HTTP handler *)

Section Serve.
Context {QL : QuantityLib} {SL : StringsLib} {CD : Codec} {JD : JsonDiff}
        {RC : ReviewCodec}.

Lemma length_zero_empty (s : string) :
  (String.length s =? 0)%nat = true <-> s = "".
Proof. destruct s; simpl; split; congruence. Qed.

Lemma body_empty_cases (body : option string) :
  match body with Some data => data | None => "" end = ""
  <-> body = None \/ body = Some "".
Proof.
  destruct body as [data |]; split; auto.
  - intros ->. now right.
  - intros [H | [= ->]]; [discriminate H | reflexivity].
Qed.

(** [X23].
    Both handlers call [http.Error] in exactly three cases: with status 400
    and the message "empty body" when there is no body, it could not be
    read or it is empty, whatever the content type; otherwise with status
    415, and a message quoting the content type, when the Content-Type
    header is not exactly application/json; and with status 500 when a
    review was built but encoding it or writing it failed.  A 400 or 415
    leaves the store as it was; a 500 leaves it as [mutate] left it. *)
Theorem serve_http_errors (conn : Connection (list V1.patchOperation))
    (conn2 : Connection PatchBytes) (r : HttpRequest)
    (QoSInst : QoSStore.QoSpec) (code : nat) (message : string) :
  let transport_error :=
    ((Body r = None \/ Body r = Some "")
     /\ code = 400%nat /\ message = "empty body")
    \/ (~ (Body r = None \/ Body r = Some "")
        /\ ContentType r <> "application/json"
        /\ code = 415%nat
        /\ message = "Content-Type=" +:+ ContentType r
                     +:+ ", expect `application/json`") in
  (V1.serve_on conn r = Served (HttpError code message) <-> transport_error)
  /\ (fst (V2.serve_on conn2 r QoSInst) = Served (HttpError code message)
      <-> transport_error)
  /\ (fst (V2.serve_on conn2 r QoSInst) = Served (HttpError code message) ->
      snd (V2.serve_on conn2 r QoSInst) = QoSInst)
  /\ (forall review,
        V1.serve_on conn r = InternalServerError review
        <-> V1.serve r = Written review
            /\ (marshal_fails conn review = true \/ write_fails conn = true))
  /\ (forall review,
        fst (V2.serve_on conn2 r QoSInst) = InternalServerError review
        <-> fst (V2.serve r QoSInst) = Written review
            /\ (marshal_fails conn2 review = true
                \/ write_fails conn2 = true))
  /\ snd (V2.serve_on conn2 r QoSInst) = snd (V2.serve r QoSInst).
Proof.
  intros transport_error.
  assert (Hfinish : forall P (c : Connection P) (o : HttpOutcome P),
            (finish_serve c o = Served (HttpError code message)
             <-> o = HttpError code message)
            /\ (forall review,
                  finish_serve c o = InternalServerError review
                  <-> o = Written review
                      /\ (marshal_fails c review = true
                          \/ write_fails c = true))).
  { intros P c o. destruct o as [code' message' | review' |]; simpl.
    - split; [split; intros [= -> ->]; reflexivity |].
      intros review. split; [discriminate | intros [H _]; discriminate H].
    - destruct (marshal_fails c review' || write_fails c) eqn:Hfail.
      + split; [split; discriminate |].
        intros review. split.
        * intros [= <-]. split; [reflexivity |].
          now apply orb_true_iff in Hfail.
        * intros [[= <-] _]. reflexivity.
      + split; [split; discriminate |].
        intros review. split; [discriminate |].
        intros [[= <-] Hor]. apply orb_true_iff in Hor. congruence.
    - split; [split; discriminate |].
      intros review. split; [discriminate | intros [H _]; discriminate H]. }
  assert (Hv1 : V1.serve r = HttpError code message <-> transport_error).
  { subst transport_error. unfold V1.serve.
    rewrite <- !body_empty_cases.
    set (body := match Body r with Some data => data | None => "" end).
    destruct (String.length body =? 0)%nat eqn:Hlen.
    - apply length_zero_empty in Hlen. unfold StatusBadRequest. split.
      + intros [= <- <-]. left. auto.
      + intros [(_ & -> & ->) | (H & _)]; [reflexivity | contradiction].
    - assert (Hne : body <> "").
      { intros H. apply length_zero_empty in H. congruence. }
      destruct (String.eqb_spec (ContentType r) "application/json")
        as [Hct | Hct]; simpl.
      + destruct (Decode body) as [request err]. split.
        * destruct (V1.serve_route r request err); discriminate.
        * intros [(H & _) | (_ & H & _)]; contradiction.
      + unfold StatusUnsupportedMediaType. split.
        * intros [= <- <-]. right. auto.
        * intros [(H & _) | (_ & _ & -> & ->)]; [contradiction | reflexivity]. }
  assert (Hv2 : (fst (V2.serve r QoSInst) = HttpError code message
                 <-> transport_error)
                /\ (fst (V2.serve r QoSInst) = HttpError code message ->
                    snd (V2.serve r QoSInst) = QoSInst)).
  { subst transport_error. unfold V2.serve.
    rewrite <- !body_empty_cases.
    set (body := match Body r with Some data => data | None => "" end).
    destruct (String.length body =? 0)%nat eqn:Hlen.
    - apply length_zero_empty in Hlen. simpl. unfold StatusBadRequest.
      split; [| reflexivity]. split.
      + intros [= <- <-]. left. auto.
      + intros [(_ & -> & ->) | (H & _)]; [reflexivity | contradiction].
    - assert (Hne : body <> "").
      { intros H. apply length_zero_empty in H. congruence. }
      destruct (String.eqb_spec (ContentType r) "application/json")
        as [Hct | Hct]; simpl.
      + destruct (Decode body) as [request err].
        destruct (V2.serve_route r request err QoSInst) as [[? ?] |]; simpl.
        * split; [| discriminate]. split; [discriminate |].
          intros [(H & _) | (_ & H & _)]; contradiction.
        * split; [| discriminate]. split; [discriminate |].
          intros [(H & _) | (_ & H & _)]; contradiction.
      + unfold StatusUnsupportedMediaType. split; [| reflexivity]. split.
        * intros [= <- <-]. right. auto.
        * intros [(H & _) | (_ & _ & -> & ->)]; [contradiction | reflexivity]. }
  unfold V1.serve_on, V2.serve_on.
  destruct (V2.serve r QoSInst) as [outcome2 QoSInst2]. simpl in *.
  destruct (Hfinish _ conn (V1.serve r)) as [Ha Hb].
  destruct (Hfinish _ conn2 outcome2) as [Hc Hd].
  destruct Hv2 as [Hv2 Hstore].
  repeat split.
  - intros H. now apply Hv1, Ha.
  - intros H. now apply Ha, Hv1.
  - intros H. now apply Hv2, Hc.
  - intros H. now apply Hc, Hv2.
  - intros H. now apply Hstore, Hc.
  - now apply Hb.
  - now apply Hb.
  - intros H. apply Hb. tauto.
  - now apply Hd.
  - now apply Hd.
  - intros H. apply Hd. tauto.
Qed.

(** [X24].
    When the body does not decode into a review, both handlers still write
    a review, for any URL path: its response has allowed unset, no patch,
    and the message "Can't decode body,error info is :  " followed by the
    decoder's error; the UID is the request's if the decoder left one and
    empty otherwise.  The store is left as it was. *)
Theorem serve_decode_failure (r : HttpRequest) (body : string)
    (request : option (AdmissionRequest Raw)) (err : string)
    (QoSInst : QoSStore.QoSpec) :
  Body r = Some body -> body <> "" ->
  ContentType r = "application/json" ->
  Decode body = (request, Some err) ->
  let uid := match request with Some req => UID req | None => "" end in
  let message :=
    String "010" "Can't decode body,error info is :  " +:+ err in
  V1.serve r
  = Written
      {| Review_TypeMeta :=
           {| metav1.APIVersion := "admission.k8s.io/v1";
              metav1.TypeMeta_Kind := "AdmissionReview" |};
         Review_Response := Some (uid, messageResponse message) |}
  /\ V2.serve r QoSInst
     = (Written
          {| Review_TypeMeta :=
               {| metav1.APIVersion := ""; metav1.TypeMeta_Kind := "" |};
             Review_Response := Some (uid, messageResponse message) |},
        QoSInst).
Proof.
  intros Hbody Hne Hct Hdec uid message.
  assert (Hlen : (String.length body =? 0)%nat = false).
  { destruct (String.length body =? 0)%nat eqn:H; [| reflexivity].
    apply length_zero_empty in H. contradiction. }
  unfold V1.serve, V2.serve.
  rewrite Hbody, Hlen, Hct, Hdec. split; reflexivity.
Qed.

(** [X25].
    A decoded review that carries a request is routed by the URL path, and
    the response written back has the request's UID: on /mutate it is the
    response of [mutate], on /validate (direct-construction webhook only)
    the response of [validate]; the diff-based handler passes on the store
    that its [mutate] returns. *)
Theorem serve_routes (r : HttpRequest) (body : string)
    (req : AdmissionRequest Raw) (QoSInst : QoSStore.QoSpec) :
  Body r = Some body -> body <> "" ->
  ContentType r = "application/json" ->
  Decode body = (Some req, None) ->
  (URLPath r = "/mutate" ->
   V1.serve r
   = Written
       {| Review_TypeMeta :=
            {| metav1.APIVersion := "admission.k8s.io/v1";
               metav1.TypeMeta_Kind := "AdmissionReview" |};
          Review_Response := Some (UID req, V1.mutate req) |}
   /\ V2.serve r QoSInst
      = (Written
           {| Review_TypeMeta :=
                {| metav1.APIVersion := ""; metav1.TypeMeta_Kind := "" |};
              Review_Response :=
                Some (UID req, fst (V2.mutate req QoSInst)) |},
         snd (V2.mutate req QoSInst)))
  /\ (URLPath r = "/validate" ->
      V1.serve r
      = Written
          {| Review_TypeMeta :=
               {| metav1.APIVersion := "admission.k8s.io/v1";
                  metav1.TypeMeta_Kind := "AdmissionReview" |};
             Review_Response := Some (UID req, V1.validate req) |}).
Proof.
  intros Hbody Hne Hct Hdec.
  assert (Hlen : (String.length body =? 0)%nat = false).
  { destruct (String.length body =? 0)%nat eqn:H; [| reflexivity].
    apply length_zero_empty in H. contradiction. }
  unfold V1.serve, V2.serve, V1.serve_route, V2.serve_route.
  rewrite Hbody, Hlen, Hct, Hdec. split; intros ->; simpl.
  - split; [reflexivity |]. now destruct (V2.mutate req QoSInst).
  - reflexivity.
Qed.

(** [X26].
    A decoded review on a path that the handler does not route gets a
    review without a response, and the store is left as it was: any path
    but /mutate and /validate for the direct-construction handler, any path
    but /mutate, so /validate too, for the diff-based one.  This holds
    with or without a request in the review. *)
Theorem serve_unrouted_path (r : HttpRequest) (body : string)
    (request : option (AdmissionRequest Raw)) (QoSInst : QoSStore.QoSpec) :
  Body r = Some body -> body <> "" ->
  ContentType r = "application/json" ->
  Decode body = (request, None) ->
  URLPath r <> "/mutate" ->
  V2.serve r QoSInst
  = (Written
       {| Review_TypeMeta :=
            {| metav1.APIVersion := ""; metav1.TypeMeta_Kind := "" |};
          Review_Response := None |},
     QoSInst)
  /\ (URLPath r <> "/validate" ->
      V1.serve r
      = Written
          {| Review_TypeMeta :=
               {| metav1.APIVersion := "admission.k8s.io/v1";
                  metav1.TypeMeta_Kind := "AdmissionReview" |};
             Review_Response := None |}).
Proof.
  intros Hbody Hne Hct Hdec Hm.
  assert (Hlen : (String.length body =? 0)%nat = false).
  { destruct (String.length body =? 0)%nat eqn:H; [| reflexivity].
    apply length_zero_empty in H. contradiction. }
  apply String.eqb_neq in Hm.
  unfold V1.serve, V2.serve, V1.serve_route, V2.serve_route.
  rewrite Hbody, Hlen, Hct, Hdec, Hm. split; [reflexivity |].
  intros Hv. apply String.eqb_neq in Hv. now rewrite Hv.
Qed.

(** [X27].
    The handlers panic on a nil request in exactly one situation: the body
    is non-empty, the content type is application/json, the body decodes
    without error into a review that has no request, and the path is one
    the handler routes. *)
Theorem serve_nil_request_panic (r : HttpRequest)
    (QoSInst : QoSStore.QoSpec) :
  let decoded_without_request :=
    exists body,
      Body r = Some body /\ body <> ""
      /\ ContentType r = "application/json"
      /\ Decode body = (None, None) in
  (V1.serve r = NilRequestPanic
   <-> decoded_without_request
       /\ (URLPath r = "/mutate" \/ URLPath r = "/validate"))
  /\ (fst (V2.serve r QoSInst) = NilRequestPanic
      <-> decoded_without_request /\ URLPath r = "/mutate").
Proof.
  intros decoded_without_request. subst decoded_without_request.
  unfold V1.serve, V2.serve.
  destruct (Body r) as [body |]; simpl.
  2:{ split; split; try discriminate; intros [(b & H & _) _]; discriminate H. }
  destruct (String.length body =? 0)%nat eqn:Hlen.
  { apply length_zero_empty in Hlen. subst body. simpl.
    split; split; try discriminate;
      intros [(b & [= <-] & H & _) _]; now destruct H. }
  assert (Hne : body <> "").
  { intros H. apply length_zero_empty in H. congruence. }
  destruct (String.eqb_spec (ContentType r) "application/json") as [Hct | Hct];
    simpl.
  2:{ split; split; try discriminate;
        intros [(b & _ & _ & H & _) _]; contradiction. }
  destruct (Decode body) as [request err] eqn:Hdec.
  unfold V1.serve_route, V2.serve_route.
  destruct err as [e |].
  { simpl. split; split; try discriminate;
      intros [(b & [= <-] & _ & _ & H) _]; rewrite Hdec in H; discriminate H. }
  destruct request as [req |].
  { split; split.
    - destruct (String.eqb (URLPath r) "/mutate"); [discriminate |].
      destruct (String.eqb (URLPath r) "/validate"); discriminate.
    - intros [(b & [= <-] & _ & _ & H) _]; rewrite Hdec in H; discriminate H.
    - destruct (String.eqb (URLPath r) "/mutate"); simpl;
        [destruct (V2.mutate req QoSInst) |]; discriminate.
    - intros [(b & [= <-] & _ & _ & H) _]; rewrite Hdec in H; discriminate H. }
  assert (Hyes : exists b, Some body = Some b /\ b <> ""
                           /\ ContentType r = "application/json"
                           /\ Decode b = (None, None)).
  { exists body. auto. }
  destruct (String.eqb_spec (URLPath r) "/mutate") as [Hm | Hm].
  - simpl. split; split; auto.
  - destruct (String.eqb_spec (URLPath r) "/validate") as [Hv | Hv]; simpl.
    + split; split; auto; try discriminate. intros [_ H]. contradiction.
    + split; split; try discriminate.
      * intros [_ [H | H]]; contradiction.
      * intros [_ H]. contradiction.
Qed.

End Serve.

(** * Concrete runs

    The statements above, exercised on the reference instances. *)

Import Reference.
#[local] Existing Instances MilliQuantity AsciiLower TypedCodec InitDiff.

(** The mutation policy on metadata that opts out with "No". *)
Lemma mutationRequired_policy_witness :
  ~ In (metav1.Namespace opt_out_meta)
       [metav1.NamespaceSystem; metav1.NamespacePublic]
  /\ V1.mutationRequired V1.ignoredNamespaces opt_out_meta = false
  /\ V2.mutationRequired V2.ignoredNamespaces opt_out_meta = false.
Proof.
  assert (Hout : ~ In (metav1.Namespace opt_out_meta)
                      [metav1.NamespaceSystem; metav1.NamespacePublic]).
  { simpl. intros [H | [H | []]]; discriminate H. }
  split; [exact Hout |].
  destruct (mutationRequired_policy opt_out_meta Hout) as [H1 H2].
  split.
  - apply H1. left. vm_compute. tauto.
  - apply H2. vm_compute. tauto.
Defined.

(** [C6] as stated does not hold of either webhook: with no annotations at all the
    direct-construction webhook requires mutation, and with a "mutated"
    status next to an opt-in the diff-based one still requires it. *)
Lemma mutationRequired_claim_fails :
  ~ (V1.mutationRequired V1.ignoredNamespaces bare_meta = false <->
       In (Go.ToLower (Go.index (metav1.Annotations bare_meta)
                         V1.admissionWebhookAnnotationMutateKey))
          ["n"; "no"; "false"; "off"]
       \/ Go.index (metav1.Annotations bare_meta)
            V1.admissionWebhookAnnotationMutateKey = ""
       \/ Go.index (metav1.Annotations bare_meta)
            V1.admissionWebhookAnnotationStatusKey = "mutated")
  /\
  ~ (V2.mutationRequired V2.ignoredNamespaces marked_opt_in_meta = false <->
       In (Go.ToLower (Go.index (metav1.Annotations marked_opt_in_meta)
                         V2.admissionWebhookAnnotationMutateKey))
          ["n"; "no"; "false"; "off"]
       \/ Go.index (metav1.Annotations marked_opt_in_meta)
            V2.admissionWebhookAnnotationMutateKey = ""
       \/ Go.index (metav1.Annotations marked_opt_in_meta)
            V1.admissionWebhookAnnotationStatusKey = "mutated").
Proof.
  split.
  - intros [_ H]. assert (Hf : V1.mutationRequired V1.ignoredNamespaces bare_meta = false).
    { apply H. right. left. reflexivity. }
    vm_compute in Hf. discriminate Hf.
  - intros [_ H].
    assert (Hf : V2.mutationRequired V2.ignoredNamespaces marked_opt_in_meta = false).
    { apply H. right. right. vm_compute. reflexivity. }
    vm_compute in Hf. discriminate Hf.
Qed.

(** An exempt Service validated, an exempt Deployment mutated. *)
Lemma exempt_namespace_short_circuit_witness :
  (V1.object_of (request "Service" "CREATE" (DocService public_service))
     (corev1.Service_ObjectMeta public_service) []
   /\ In (metav1.Namespace (corev1.Service_ObjectMeta public_service))
         V1.ignoredNamespaces
   /\ Kind (request "Deployment" "CREATE" (DocDeployment system_deployment))
      = "Deployment"
   /\ unmarshal_Deployment
        (Object (request "Deployment" "CREATE" (DocDeployment system_deployment)))
      = inr system_deployment
   /\ In (metav1.Namespace (appsv1.ObjectMeta system_deployment))
         V2.ignoredNamespaces)
  /\ V1.validate (request "Service" "CREATE" (DocService public_service))
     = allowedResponse
  /\ V2.mutate (request "Deployment" "CREATE" (DocDeployment system_deployment))
       QoSStore.QoSInst_init
     = (allowedResponse, QoSStore.QoSInst_init).
Proof.
  assert (H1 : V1.object_of
                 (request "Service" "CREATE" (DocService public_service))
                 (corev1.Service_ObjectMeta public_service) []).
  { apply (V1.object_of_service _ public_service); reflexivity. }
  assert (H2 : In (metav1.Namespace (corev1.Service_ObjectMeta public_service))
                  V1.ignoredNamespaces).
  { simpl. right. left. reflexivity. }
  assert (H5 : In (metav1.Namespace (appsv1.ObjectMeta system_deployment))
                  V2.ignoredNamespaces).
  { simpl. left. reflexivity. }
  split; [repeat split; assumption || reflexivity |].
  destruct (exempt_namespace_short_circuit (CD := TypedCodec) (JD := InitDiff)
              (request "Service" "CREATE" (DocService public_service))
              (corev1.Service_ObjectMeta public_service) []
              (request "Deployment" "CREATE" (DocDeployment system_deployment))
              system_deployment QoSStore.QoSInst_init
              H1 H2 eq_refl eq_refl H5) as (Hv & Hm & _).
  split; [exact Hv | exact Hm].
Defined.

(** [C1] as stated does not hold: for a Deployment in kube-system the
    direct-construction [mutate] does return a patch. *)
Lemma mutate_ignores_exempt_namespace :
  In (metav1.Namespace (appsv1.ObjectMeta system_deployment))
     V1.ignoredNamespaces
  /\ unmarshal_Deployment
       (Object (request "Deployment" "CREATE" (DocDeployment system_deployment)))
     = inr system_deployment
  /\ ~ (Allowed (V1.mutate (request "Deployment" "CREATE"
                              (DocDeployment system_deployment))) = true
        /\ Patch (V1.mutate (request "Deployment" "CREATE"
                               (DocDeployment system_deployment))) = None
        /\ Result (V1.mutate (request "Deployment" "CREATE"
                                (DocDeployment system_deployment))) = None).
Proof.
  split; [simpl; left; reflexivity |].
  split; [reflexivity |].
  intros (_ & H & _). vm_compute in H. discriminate H.
Qed.

(** A fully labelled Deployment is allowed. *)
Lemma validate_required_labels_witness :
  (V1.object_of (request "Deployment" "CREATE" (DocDeployment web_deployment))
     (appsv1.ObjectMeta web_deployment)
     (corev1.Containers (appsv1.Spec_Template_Spec web_deployment))
   /\ V1.validationRequired V1.ignoredNamespaces
        (appsv1.ObjectMeta web_deployment) = true)
  /\ V1.validate (request "Deployment" "CREATE" (DocDeployment web_deployment))
     = allowedResponse.
Proof.
  assert (H1 : V1.object_of
                 (request "Deployment" "CREATE" (DocDeployment web_deployment))
                 (appsv1.ObjectMeta web_deployment)
                 (corev1.Containers (appsv1.Spec_Template_Spec web_deployment))).
  { apply (V1.object_of_deployment _ web_deployment); reflexivity. }
  split; [split; [exact H1 | reflexivity] |].
  destruct (validate_required_labels (CD := TypedCodec) _ _ _ H1 eq_refl) as (_ & Hyes & _).
  apply Hyes. intros rl Hin. simpl in Hin.
  repeat (destruct Hin as [<- | Hin]; [vm_compute; eauto |]).
  destruct Hin.
Defined.

(** A ConfigMap is rejected by every operation. *)
Lemma unsupported_kind_rejected_witness :
  Kind (request "ConfigMap" "CREATE" (DocMalformed "")) <> "Deployment"
  /\ V1.validate (request "ConfigMap" "CREATE" (DocMalformed ""))
     = messageResponse
         (String "010" "Not support for this Kind of resource  ConfigMap")
  /\ V1.mutate (request "ConfigMap" "CREATE" (DocMalformed ""))
     = messageResponse
         (String "010" "Not support for this Kind of resource  ConfigMap")
  /\ V2.mutate (request "ConfigMap" "CREATE" (DocMalformed ""))
       QoSStore.QoSInst_init
     = (messageResponse
          (String "010" "Not support for this Kind of resource  ConfigMap"),
        QoSStore.QoSInst_init).
Proof.
  assert (Hd : Kind (request "ConfigMap" "CREATE" (DocMalformed ""))
               <> "Deployment") by discriminate.
  split; [exact Hd |].
  destruct (unsupported_kind_rejected (CD := TypedCodec) (JD := InitDiff)
              (request "ConfigMap" "CREATE" (DocMalformed ""))
              QoSStore.QoSInst_init Hd) as [H1 H2].
  destruct H1 as [Hv Hm]; [discriminate |].
  split; [exact Hv |]. split; [exact Hm |].
  apply H2. discriminate.
Defined.

(** The cpu request of the first container of the sample Deployment: one
    core becomes 900m. *)
Lemma reduction_patch_entry_witness :
  (Kind (request "Deployment" "CREATE" (DocDeployment web_deployment))
   = "Deployment"
   /\ unmarshal_Deployment
        (Object (request "Deployment" "CREATE" (DocDeployment web_deployment)))
      = inr web_deployment
   /\ corev1.Containers (appsv1.Spec_Template_Spec web_deployment) !! 0%nat
      = Some (container [("cpu", quantity 1000 DecimalSI);
                         ("memory", quantity 134217728000 BinarySI)])
   /\ In ("cpu", quantity 1000 DecimalSI)
         [("cpu", quantity 1000 DecimalSI);
          ("memory", quantity 134217728000 BinarySI)]
   /\ NoDup (map (fun e => strings_ToLower (fst e))
               [("cpu", quantity 1000 DecimalSI);
                ("memory", quantity 134217728000 BinarySI)])
   /\ 0 <= 1000
   /\ 1000 * 90 <= Go.int64_max)
  /\ exists patch,
       V1.mutate (request "Deployment" "CREATE" (DocDeployment web_deployment))
       = patchResponse patch
       /\ filter (fun op =>
                    V1.Path op
                    = "/spec/template/spec/containers/0/resources/requests/cpu")
                 patch
          = [ {| V1.Op := "replace";
                 V1.Path :=
                   "/spec/template/spec/containers/0/resources/requests/cpu";
                 V1.Value := V1.VString "900m" |} ].
Proof.
  assert (Hin : In ("cpu", quantity 1000 DecimalSI)
                   [("cpu", quantity 1000 DecimalSI);
                    ("memory", quantity 134217728000 BinarySI)]).
  { simpl. left. reflexivity. }
  assert (Hnd : NoDup (map (fun e : string * milli => strings_ToLower (fst e))
                         [("cpu", quantity 1000 DecimalSI);
                          ("memory", quantity 134217728000 BinarySI)])).
  { vm_compute. repeat constructor.
    - intros H. apply list_elem_of_In in H. destruct H as [H | []].
      discriminate H.
    - intros H. apply list_elem_of_In in H. destruct H. }
  assert (Hpos : 0 <= 1000) by lia.
  assert (Hfit : 1000 * 90 <= Go.int64_max) by (unfold Go.int64_max; lia).
  split; [repeat split; assumption || reflexivity |].
  exact (reduction_patch_entry (CD := TypedCodec)
           (request "Deployment" "CREATE" (DocDeployment web_deployment))
           web_deployment 0
           (container [("cpu", quantity 1000 DecimalSI);
                       ("memory", quantity 134217728000 BinarySI)])
           "cpu" (quantity 1000 DecimalSI)
           eq_refl eq_refl eq_refl Hin Hnd Hpos Hfit).
Defined.

(** [C2] as stated does not hold, in three ways: a negative quantity is truncated
    toward zero, not floored; for 100Ti of memory the product with 90 wraps
    around; and two names that differ only in case give two operations at
    one path. *)
Lemma reduction_claim_fails :
  ~ (exists patch,
       V1.mutate (request "Deployment" "CREATE"
                    (DocDeployment negative_deployment))
       = patchResponse patch
       /\ filter (fun op => V1.Path op = V1.requestPath 0 "cpu") patch
          = [ {| V1.Op := "replace"; V1.Path := V1.requestPath 0 "cpu";
                 V1.Value :=
                   V1.VString
                     (Quantity_String
                        (NewMilliQuantity (-1 * 90 / 100) DecimalSI)) |} ])
  /\
  ~ (exists patch,
       V1.mutate (request "Deployment" "CREATE" (DocDeployment huge_deployment))
       = patchResponse patch
       /\ filter (fun op => V1.Path op = V1.requestPath 0 "memory") patch
          = [ {| V1.Op := "replace"; V1.Path := V1.requestPath 0 "memory";
                 V1.Value :=
                   V1.VString
                     (Quantity_String
                        (NewMilliQuantity (109951162777600000 * 90 / 100)
                           BinarySI)) |} ])
  /\
  ~ (exists patch,
       V1.mutate (request "Deployment" "CREATE"
                    (DocDeployment mixed_case_deployment))
       = patchResponse patch
       /\ filter (fun op => V1.Path op = V1.requestPath 0 "CPU") patch
          = [ {| V1.Op := "replace"; V1.Path := V1.requestPath 0 "CPU";
                 V1.Value :=
                   V1.VString
                     (Quantity_String
                        (NewMilliQuantity (1000 * 90 / 100) DecimalSI)) |} ]).
Proof.
  repeat split; intros (patch & Hm & Hf);
    injection Hm as <-; vm_compute in Hf; discriminate Hf.
Qed.

(** What the code computes on those three inputs. *)
Example reduction_on_edge_inputs :
  Patch (V1.mutate (request "Deployment" "CREATE"
                      (DocDeployment negative_deployment)))
  = Some [ V1.addStatus;
           {| V1.Op := "replace";
              V1.Path := "/spec/template/spec/containers/0/resources/requests/cpu";
              V1.Value := V1.VString "0" |} ]
  /\ Patch (V1.mutate (request "Deployment" "CREATE"
                         (DocDeployment huge_deployment)))
     = Some [ V1.addStatus;
              {| V1.Op := "replace";
                 V1.Path :=
                   "/spec/template/spec/containers/0/resources/requests/memory";
                 V1.Value := V1.VString "-85511394237255516m" |} ]
  /\ Patch (V1.mutate (request "Deployment" "CREATE"
                         (DocDeployment mixed_case_deployment)))
     = Some [ V1.addStatus;
              {| V1.Op := "replace";
                 V1.Path :=
                   "/spec/template/spec/containers/0/resources/requests/cpu";
                 V1.Value := V1.VString "900m" |};
              {| V1.Op := "replace";
                 V1.Path :=
                   "/spec/template/spec/containers/0/resources/requests/cpu";
                 V1.Value := V1.VString "900m" |} ].
Proof. repeat split; vm_compute; reflexivity. Qed.



(** The store after a [set] of cpu 500, memory 800, and after an update
    request carrying that spec. *)
Lemma qos_store_get_witness :
  {| QoSStore.Cpu := 500; QoSStore.Memory := 800 |} <> QoSStore.zero
  /\ QoSStore.getQoSpec
       (QoSStore.setQoSpec {| QoSStore.Cpu := 500; QoSStore.Memory := 800 |}
          QoSStore.QoSInst_init)
     = {| QoSStore.Cpu := 500; QoSStore.Memory := 800 |}
  /\ QoSStore.getQoSpec
       (V2.run
          [ request "QoS" "UPDATE"
              (DocQoS {| QoSStore.Spec :=
                           {| QoSStore.Cpu := 500; QoSStore.Memory := 800 |} |});
            request "QoS" "DELETE"
              (DocQoS {| QoSStore.Spec :=
                           {| QoSStore.Cpu := 500; QoSStore.Memory := 800 |} |}) ]
          QoSStore.QoSInst_init)
     = {| QoSStore.Cpu := 200; QoSStore.Memory := 400 |}.
Proof.
  assert (Hne : {| QoSStore.Cpu := 500; QoSStore.Memory := 800 |}
                <> QoSStore.zero) by discriminate.
  split; [exact Hne |].
  destruct (qos_store_get (CD := TypedCodec) (JD := InitDiff))
    as (_ & _ & Hset & _ & Hrun).
  split.
  - exact (Hset _ QoSStore.QoSInst_init Hne).
  - exact (Hrun _).
Defined.

(** The plain Deployment, patched and mutated again. *)
Lemma mutate_patch_recomputed_witness :
  (V1.object_of (request "Deployment" "CREATE" (DocDeployment plain_deployment))
     (appsv1.ObjectMeta plain_deployment)
     (corev1.Containers (appsv1.Spec_Template_Spec plain_deployment))
   /\ V1.mutate (request "Deployment" "CREATE" (DocDeployment plain_deployment))
      = patchResponse [V1.addStatus]
   /\ V1.object_of
        (request "Deployment" "UPDATE" (DocDeployment marked_deployment))
        (appsv1.ObjectMeta marked_deployment)
        (corev1.Containers (appsv1.Spec_Template_Spec marked_deployment))
   /\ V1.applyPatchToAnnotations [V1.addStatus]
        (metav1.Annotations (appsv1.ObjectMeta plain_deployment))
      = Some (metav1.Annotations (appsv1.ObjectMeta marked_deployment)))
  /\ exists patch',
       V1.mutate (request "Deployment" "UPDATE" (DocDeployment marked_deployment))
       = patchResponse patch'
       /\ hd_error patch' = Some V1.addStatus
       /\ hd_error patch' = hd_error [V1.addStatus].
Proof.
  assert (H1 : V1.object_of
                 (request "Deployment" "CREATE" (DocDeployment plain_deployment))
                 (appsv1.ObjectMeta plain_deployment)
                 (corev1.Containers
                    (appsv1.Spec_Template_Spec plain_deployment))).
  { apply (V1.object_of_deployment _ plain_deployment); reflexivity. }
  assert (H3 : V1.object_of
                 (request "Deployment" "UPDATE" (DocDeployment marked_deployment))
                 (appsv1.ObjectMeta marked_deployment)
                 (corev1.Containers
                    (appsv1.Spec_Template_Spec marked_deployment))).
  { apply (V1.object_of_deployment _ marked_deployment); reflexivity. }
  split; [repeat split; assumption || reflexivity |].
  exact (proj2 (mutate_patch_recomputed (CD := TypedCodec)
                  _ _ _ _ _ _ [V1.addStatus] H1 eq_refl H3 eq_refl)).
Defined.

(** [C8] as stated does not hold: [mutate] answers the plain Deployment with the
    status add; applying it leaves the status annotation as the only
    annotation; and the patch recomputed for the Deployment so marked is
    not free of an add at /metadata/annotations for that key. *)
Lemma recomputed_patch_adds_again :
  V1.mutate (request "Deployment" "CREATE" (DocDeployment plain_deployment))
  = patchResponse [V1.addStatus]
  /\ V1.applyPatchToAnnotations [V1.addStatus]
       (metav1.Annotations (appsv1.ObjectMeta plain_deployment))
     = Some (metav1.Annotations (appsv1.ObjectMeta marked_deployment))
  /\ ~ (forall patch',
         V1.mutate (request "Deployment" "UPDATE"
                      (DocDeployment marked_deployment))
         = patchResponse patch' ->
         forall op, In op patch' ->
           ~ (V1.Path op = "/metadata/annotations"
              /\ (V1.Op op = "add" \/ V1.Op op = "replace"))).
Proof.
  split; [reflexivity |]. split; [reflexivity |].
  intros H.
  apply (H [V1.addStatus] eq_refl V1.addStatus (or_introl eq_refl)).
  split; [reflexivity | left; reflexivity].
Qed.



(** The patch for the sample Deployment. *)
Lemma mutate_status_annotation_witness :
  Patch (V1.mutate (request "Deployment" "CREATE" (DocDeployment web_deployment)))
  = Some (V1.addStatus
          :: V1.applyResourceReduction
               (corev1.Containers (appsv1.Spec_Template_Spec web_deployment)))
  /\ In V1.addStatus
        (V1.addStatus
         :: V1.applyResourceReduction
              (corev1.Containers (appsv1.Spec_Template_Spec web_deployment)))
  /\ V1.applyToAnnotations V1.addStatus
       (metav1.Annotations (appsv1.ObjectMeta web_deployment))
     = Some (Some {[ V1.admissionWebhookAnnotationStatusKey := "mutated" ]}).
Proof.
  split; [reflexivity |].
  destruct (mutate_status_annotation (CD := TypedCodec)
              (request "Deployment" "CREATE" (DocDeployment web_deployment))
              _ eq_refl) as (Hin & _ & Happly & _).
  split; [exact Hin | exact (Happly _)].
Defined.

(** ** Further runs *)

(** The labels to add against a target that already names the
    application. *)
Lemma updateLabels_value_witness :
  NoDup (map fst V1.addLabels)
  /\ exists values,
       V1.updateLabels (Some {[ V1.nameLabel := "web" ]}) V1.addLabels
       = [ {| V1.Op := "add"; V1.Path := "/metadata/labels";
              V1.Value := V1.VMap values |} ]
       /\ values !! V1.nameLabel = None
       /\ values !! V1.versionLabel = Some V1.NA.
Proof.
  assert (Hnd : NoDup (map fst V1.addLabels)).
  { vm_compute. repeat constructor; intros H; apply list_elem_of_In in H;
      simpl in H; intuition discriminate. }
  split; [exact Hnd |].
  destruct (updateLabels_value (Some {[ V1.nameLabel := "web" ]})
              V1.addLabels Hnd) as (values & Heq & Hspec).
  exists values. split; [exact Heq |]. split.
  - destruct (values !! V1.nameLabel) as [v |] eqn:Hv; [| reflexivity].
    apply Hspec in Hv as [_ Hv]. vm_compute in Hv. discriminate Hv.
  - apply Hspec. split; [| reflexivity].
    simpl. right. right. left. reflexivity.
Defined.

(** One core is reduced to 900 milli-units. *)
Lemma reduced_value_bounds_witness :
  (0 <= 1000 /\ 1000 * 90 <= Go.int64_max)
  /\ exists v,
       V1.Value (V1.reduceRequest 0 ("cpu", quantity 1000 DecimalSI))
       = V1.VString
           (Quantity_String (NewMilliQuantity v DecimalSI))
       /\ 0 <= v <= 1000 /\ (0 < 1000 -> v < 1000) /\ (v = 0 <-> 1000 <= 1).
Proof.
  assert (Hpos : 0 <= 1000) by lia.
  assert (Hfit : 1000 * 90 <= Go.int64_max) by (unfold Go.int64_max; lia).
  split; [split; assumption |].
  exact (reduced_value_bounds (QL := MilliQuantity) 0 "cpu"
           (quantity 1000 DecimalSI) Hpos Hfit).
Defined.

(** A Deployment without labels that opts out of validation. *)
Lemma validate_opt_out_witness :
  (V1.object_of
     (request "Deployment" "CREATE" (DocDeployment opted_out_deployment))
     (appsv1.ObjectMeta opted_out_deployment)
     (corev1.Containers (appsv1.Spec_Template_Spec opted_out_deployment))
   /\ In (Go.ToLower
            (Go.index
               (metav1.Annotations (appsv1.ObjectMeta opted_out_deployment))
               V1.admissionWebhookAnnotationValidateKey))
         ["n"; "no"; "false"; "off"])
  /\ V1.validate
       (request "Deployment" "CREATE" (DocDeployment opted_out_deployment))
     = allowedResponse.
Proof.
  assert (Hobj : V1.object_of
                   (request "Deployment" "CREATE"
                      (DocDeployment opted_out_deployment))
                   (appsv1.ObjectMeta opted_out_deployment)
                   (corev1.Containers
                      (appsv1.Spec_Template_Spec opted_out_deployment))).
  { apply (V1.object_of_deployment _ opted_out_deployment); reflexivity. }
  assert (Hout : In (Go.ToLower
                       (Go.index
                          (metav1.Annotations
                             (appsv1.ObjectMeta opted_out_deployment))
                          V1.admissionWebhookAnnotationValidateKey))
                    ["n"; "no"; "false"; "off"]).
  { vm_compute. tauto. }
  split; [split; assumption |].
  exact (validate_opt_out (CD := TypedCodec) _ _ _ Hobj Hout).
Defined.

(** A Deployment whose object does not parse. *)
Lemma decode_failure_rejected_witness :
  unmarshal_Deployment (Object malformed_deployment)
  = inl "unexpected end of JSON input"
  /\ V1.validate malformed_deployment
     = messageResponse "unexpected end of JSON input"
  /\ V1.mutate malformed_deployment
     = messageResponse "unexpected end of JSON input"
  /\ V2.mutate malformed_deployment QoSStore.QoSInst_init
     = (messageResponse "unexpected end of JSON input", QoSStore.QoSInst_init).
Proof.
  split; [reflexivity |].
  exact (proj1 (decode_failure_rejected (CD := TypedCodec) (JD := InitDiff)
                  malformed_deployment "unexpected end of JSON input"
                  QoSStore.QoSInst_init)
           eq_refl eq_refl).
Defined.

(** The sample Deployment declares two requests: three operations. *)
Lemma mutate_patch_length_witness :
  V1.object_of (request "Deployment" "CREATE" (DocDeployment web_deployment))
    (appsv1.ObjectMeta web_deployment)
    (corev1.Containers (appsv1.Spec_Template_Spec web_deployment))
  /\ exists patch,
       V1.mutate (request "Deployment" "CREATE" (DocDeployment web_deployment))
       = patchResponse patch
       /\ length patch = 3%nat.
Proof.
  assert (Hobj : V1.object_of
                   (request "Deployment" "CREATE" (DocDeployment web_deployment))
                   (appsv1.ObjectMeta web_deployment)
                   (corev1.Containers
                      (appsv1.Spec_Template_Spec web_deployment))).
  { apply (V1.object_of_deployment _ web_deployment); reflexivity. }
  split; [exact Hobj |].
  destruct (mutate_patch_length (CD := TypedCodec) _ _ _ Hobj)
    as (patch & Hm & Hlen & _).
  exists patch. split; [exact Hm | exact Hlen].
Defined.

(** An update request moves the store off its start value. *)
Lemma store_changes_only_by_qos_witness :
  snd (V2.mutate qos_update QoSStore.QoSInst_init) <> QoSStore.QoSInst_init
  /\ Kind qos_update = "QoS"
  /\ exists qos,
       unmarshal_QoS (Object qos_update) = inr qos
       /\ snd (V2.mutate qos_update QoSStore.QoSInst_init) = QoSStore.Spec qos.
Proof.
  assert (Hne : snd (V2.mutate qos_update QoSStore.QoSInst_init)
                <> QoSStore.QoSInst_init).
  { vm_compute. discriminate. }
  split; [exact Hne |].
  destruct (store_changes_only_by_qos (CD := TypedCodec) (JD := InitDiff)
              qos_update QoSStore.QoSInst_init Hne)
    as (Hk & qos & Hq & [[Hop _] | (_ & _ & Hs)]).
  - discriminate Hop.
  - split; [exact Hk |]. exists qos. split; [exact Hq | exact Hs].
Defined.

(** Two delete requests that differ in their new object only. *)
Lemma qos_request_reads_one_object_witness :
  (Kind qos_delete = "QoS"
   /\ Operation qos_delete = "DELETE"
   /\ OldObject qos_delete = DocQoS qos_500_800)
  /\ V2.mutate qos_delete QoSStore.QoSInst_init
     = V2.mutate
         {| UID := "uid-2"; Kind := "QoS"; Namespace := "other";
            Name := "qos"; Operation := "DELETE";
            Object := DocMalformed "no new object";
            OldObject := DocQoS qos_500_800 |}
         QoSStore.QoSInst_init.
Proof.
  split; [repeat split |].
  exact (qos_request_reads_one_object (CD := TypedCodec) (JD := InitDiff)
           qos_delete
           {| UID := "uid-2"; Kind := "QoS"; Namespace := "other";
              Name := "qos"; Operation := "DELETE";
              Object := DocMalformed "no new object";
              OldObject := DocQoS qos_500_800 |}
           QoSStore.QoSInst_init eq_refl eq_refl eq_refl eq_refl).
Defined.

(** A delete, then an update: the update's spec is what [get] returns. *)
Lemma last_config_request_wins_witness :
  (Kind qos_update = "QoS"
   /\ unmarshal_QoS (Object qos_update) = inr qos_500_800
   /\ Operation qos_update <> "DELETE"
   /\ QoSStore.Spec qos_500_800 <> QoSStore.zero)
  /\ QoSStore.getQoSpec
       (V2.run ([qos_delete] ++ [qos_update])
          {| QoSStore.Cpu := 1; QoSStore.Memory := 1 |})
     = QoSStore.Spec qos_500_800.
Proof.
  assert (Hop : Operation qos_update <> "DELETE") by discriminate.
  assert (Hne : QoSStore.Spec qos_500_800 <> QoSStore.zero) by discriminate.
  split; [repeat split; assumption |].
  exact (proj2 (last_config_request_wins (CD := TypedCodec) (JD := InitDiff)
                  [qos_delete] qos_update qos_500_800
                  {| QoSStore.Cpu := 1; QoSStore.Memory := 1 |}
                  eq_refl eq_refl)
           Hop Hne).
Defined.

(** The Deployment with an init container of its own stays as it is. *)
Lemma existing_init_containers_kept_witness :
  corev1.InitContainers (appsv1.Spec_Template_Spec initialized_deployment)
  <> []
  /\ V2.newDeploy {| QoSStore.Cpu := 500; QoSStore.Memory := 800 |}
       initialized_deployment
     = initialized_deployment.
Proof.
  assert (Hne : corev1.InitContainers
                  (appsv1.Spec_Template_Spec initialized_deployment) <> [])
    by discriminate.
  split; [exact Hne |].
  exact (existing_init_containers_kept (QL := MilliQuantity)
           {| QoSStore.Cpu := 500; QoSStore.Memory := 800 |}
           initialized_deployment Hne).
Defined.

(** The sample Deployment under a diff that fails. *)
Lemma diff_failure_rejected_witness :
  (V2.mutationRequired V2.ignoredNamespaces (appsv1.ObjectMeta web_deployment)
   = true
   /\ @Compare MilliQuantity FailingDiff web_deployment
        (V2.newDeploy QoSStore.QoSInst_init web_deployment)
      = inl "diff failed")
  /\ @V2.mutateDeploy MilliQuantity FailingDiff QoSStore.QoSInst_init
       web_deployment
     = messageResponse "diff failed".
Proof.
  split; [split; reflexivity |].
  exact (diff_failure_rejected (JD := FailingDiff) QoSStore.QoSInst_init
           web_deployment "diff failed" eq_refl (or_introl eq_refl)).
Defined.

(** A Deployment that carries no annotation at all. *)
Lemma absent_annotation_not_mutated_witness :
  Go.index (metav1.Annotations (appsv1.ObjectMeta negative_deployment))
    V2.admissionWebhookAnnotationMutateKey = ""
  /\ V2.mutate
       (request "Deployment" "CREATE" (DocDeployment negative_deployment))
       QoSStore.QoSInst_init
     = (allowedResponse, QoSStore.QoSInst_init).
Proof.
  split; [reflexivity |].
  exact (absent_annotation_not_mutated (CD := TypedCodec) (JD := InitDiff)
           (request "Deployment" "CREATE" (DocDeployment negative_deployment))
           negative_deployment QoSStore.QoSInst_init
           eq_refl eq_refl eq_refl).
Defined.

#[local] Existing Instance TableDecoder.

(** A body that is not a review. *)
Lemma serve_decode_failure_witness :
  (Body (post "garbage" "application/json" "/mutate") = Some "garbage"
   /\ "garbage" <> ""
   /\ Decode "garbage"
      = (None, Some "couldn't get version/kind; json parse error"))
  /\ V1.serve (post "garbage" "application/json" "/mutate")
     = Written
         {| Review_TypeMeta :=
              {| metav1.APIVersion := "admission.k8s.io/v1";
                 metav1.TypeMeta_Kind := "AdmissionReview" |};
            Review_Response :=
              Some ("",
                    messageResponse
                      (String "010" "Can't decode body,error info is :  "
                       +:+ "couldn't get version/kind; json parse error")) |}.
Proof.
  assert (Hne : "garbage" <> "") by discriminate.
  split; [repeat split; assumption || reflexivity |].
  exact (proj1 (serve_decode_failure (CD := TypedCodec) (JD := InitDiff)
                  (RC := TableDecoder)
                  (post "garbage" "application/json" "/mutate") "garbage" None
                  "couldn't get version/kind; json parse error"
                  QoSStore.QoSInst_init eq_refl Hne eq_refl eq_refl)).
Defined.

(** The sample review on /validate. *)
Lemma serve_routes_witness :
  (Body (post "web-review" "application/json" "/validate") = Some "web-review"
   /\ "web-review" <> ""
   /\ Decode "web-review"
      = (Some (request "Deployment" "CREATE" (DocDeployment web_deployment)),
         None))
  /\ V1.serve (post "web-review" "application/json" "/validate")
     = Written
         {| Review_TypeMeta :=
              {| metav1.APIVersion := "admission.k8s.io/v1";
                 metav1.TypeMeta_Kind := "AdmissionReview" |};
            Review_Response := Some ("uid-1", allowedResponse) |}.
Proof.
  assert (Hne : "web-review" <> "") by discriminate.
  split; [repeat split; assumption || reflexivity |].
  exact (proj2 (serve_routes (CD := TypedCodec) (JD := InitDiff)
                  (RC := TableDecoder)
                  (post "web-review" "application/json" "/validate")
                  "web-review"
                  (request "Deployment" "CREATE" (DocDeployment web_deployment))
                  QoSStore.QoSInst_init eq_refl Hne eq_refl eq_refl)
           eq_refl).
Defined.

(** The sample review on /validate of the diff-based handler. *)
Lemma serve_unrouted_path_witness :
  (Body (post "web-review" "application/json" "/validate") = Some "web-review"
   /\ "web-review" <> ""
   /\ URLPath (post "web-review" "application/json" "/validate") <> "/mutate")
  /\ V2.serve (post "web-review" "application/json" "/validate")
       QoSStore.QoSInst_init
     = (Written
          {| Review_TypeMeta :=
               {| metav1.APIVersion := ""; metav1.TypeMeta_Kind := "" |};
             Review_Response := None |},
        QoSStore.QoSInst_init).
Proof.
  assert (Hne : "web-review" <> "") by discriminate.
  assert (Hpath : URLPath (post "web-review" "application/json" "/validate")
                  <> "/mutate") by discriminate.
  split; [repeat split; assumption || reflexivity |].
  exact (proj1 (serve_unrouted_path (CD := TypedCodec) (JD := InitDiff)
                  (RC := TableDecoder)
                  (post "web-review" "application/json" "/validate")
                  "web-review" _ QoSStore.QoSInst_init
                  eq_refl Hne eq_refl eq_refl Hpath)).
Defined.

(** A review without a request on /mutate. *)
Lemma serve_nil_request_panic_witness :
  Decode "bare-review" = (None, None)
  /\ V1.serve (post "bare-review" "application/json" "/mutate")
     = NilRequestPanic.
Proof.
  split; [reflexivity |].
  apply (proj1 (serve_nil_request_panic (CD := TypedCodec) (JD := InitDiff)
                  (RC := TableDecoder)
                  (post "bare-review" "application/json" "/mutate")
                  QoSStore.QoSInst_init)).
  split; [| left; reflexivity].
  exists "bare-review". repeat split. discriminate.
Defined.

(** The sample review on /validate over a connection whose write fails. *)
Lemma serve_http_errors_witness :
  V1.serve (post "web-review" "application/json" "/validate")
  = Written
      {| Review_TypeMeta :=
           {| metav1.APIVersion := "admission.k8s.io/v1";
              metav1.TypeMeta_Kind := "AdmissionReview" |};
         Review_Response := Some ("uid-1", allowedResponse) |}
  /\ V1.serve_on {| marshal_fails := fun _ => false; write_fails := true |}
       (post "web-review" "application/json" "/validate")
     = InternalServerError
         {| Review_TypeMeta :=
              {| metav1.APIVersion := "admission.k8s.io/v1";
                 metav1.TypeMeta_Kind := "AdmissionReview" |};
            Review_Response := Some ("uid-1", allowedResponse) |}
  /\ V1.serve_on {| marshal_fails := fun _ => false; write_fails := false |}
       (post "" "application/json" "/validate")
     = Served (HttpError 400 "empty body").
Proof.
  split; [reflexivity |]. split.
  - destruct (serve_http_errors (CD := TypedCodec) (JD := InitDiff)
                (RC := TableDecoder)
                {| marshal_fails := fun _ => false; write_fails := true |}
                {| marshal_fails := fun _ => false; write_fails := true |}
                (post "web-review" "application/json" "/validate")
                QoSStore.QoSInst_init 0%nat "")
      as (_ & _ & _ & H & _).
    apply H. split; [reflexivity | right; reflexivity].
  - destruct (serve_http_errors (CD := TypedCodec) (JD := InitDiff)
                (RC := TableDecoder)
                {| marshal_fails := fun _ => false; write_fails := false |}
                {| marshal_fails := fun _ => false; write_fails := false |}
                (post "" "application/json" "/validate")
                QoSStore.QoSInst_init 400%nat "empty body")
      as (H & _).
    apply H. left. split; [right; reflexivity | split; reflexivity].
Defined.
